(** * Order lifecycle of the payment router

    A shallow embedding of [src/server/api/routers/payment.ts]
    (procedures [initializePayment], [completePayment], [getOrderStatus]
    and the helper [generateOrderNo]) together with the properties of the
    order lifecycle that the design document states about them.

    The router is effectful TypeScript: it reads and writes three order
    tables and the user table through the ORM, calls the PayPal verifier,
    calls one of three crediting procedures, writes to the console and
    throws.  The embedding is therefore monadic: a computation takes the
    current [World] and yields a [Completion] (normal return or thrown
    error) with the resulting [World]. *)

From Stdlib Require Import ZArith List String Ascii Bool Lia.
From Stdlib Require Import SpecFloat DecimalString.
From Stdlib Require DecimalPos DecimalZ.
Import ListNotations.
Open Scope string_scope.
Open Scope Z_scope.
Open Scope list_scope.

(** ** Values *)

(** A JavaScript [number] is an IEEE-754 double.  The router never computes
    with the numbers it handles (amounts, levels, quantities): it only moves
    them between the request, the order row, the verifier and the crediting
    procedure. *)
Definition number : Type := spec_float.

(** The value of a decimal numeric literal with [fractionDigits] digits
    after the point, [digits] being all its digits read as an integer:
    the double nearest to [digits / 10 ^ fractionDigits]. *)
Definition decimal_literal (digits : Z) (fractionDigits : nat) : number :=
  SFdiv 53 1024
    (binary_normalize 53 1024 digits 0 false)
    (binary_normalize 53 1024 (10 ^ Z.of_nat fractionDigits) 0 false).

(** [z.enum(['vip', 'svip', 'goldCoin', 'translate'])] *)
Module ProductType.
Inductive t : Type := vip | svip | goldCoin | translate.
End ProductType.

(** Error codes used by the router in [new TRPCError({code, message})]. *)
Inductive TRPCCode : Type :=
| NOT_FOUND
| INTERNAL_SERVER_ERROR
| PAYMENT_FAILED
| BAD_REQUEST.

(** A thrown value: either a [TRPCError] or any other exception object
    raised by a collaborator (network failure, driver error, ...), which the
    router only ever passes along or logs. *)
Inductive Error : Type :=
| TRPCError (code : TRPCCode) (message : string)
| OtherError (description : string).

(** ** Tables

    [~/server/db/schema] is not part of the sources at hand.  A row carries
    the columns the router writes or reads.  Columns the router fills from
    a possibly absent value ([user.nickname!], [input.productDetails.x!]:
    the [!] is erased at run time) are optional; a column stores the value
    handed to [insert] as it is. *)

Module User.
Record row : Type := {
  id : Z;
  clerkId : string;
  nickname : option string
}.
End User.

Module RecordVip.
Record row : Type := {
  orderNo : string;
  buyUserId : Z;
  buyNickname : option string;
  recipientUserId : Z;
  vipLevel : option number;
  month : option number;
  amount : string;
  payType : Z;
  status : Z;
  payTime : option Z
}.
End RecordVip.

Module RecordGoldCoin.
Record row : Type := {
  orderNo : string;
  buyUserId : Z;
  buyNickname : option string;
  recipientUserId : Z;
  amount : string;
  goldCoin : option number;
  payType : Z;
  status : Z;
  payTime : option Z
}.
End RecordGoldCoin.

Module RecordTranslate.
Record row : Type := {
  orderNo : string;
  buyUserId : Z;
  buyNickname : option string;
  recipientUserId : Z;
  characterNum : option number;
  amount : string;
  payType : Z;
  status : Z;
  payTime : option Z
}.
End RecordTranslate.

(** The database: each table is the list of its rows in storage order;
    [insert] appends, [findFirst] returns the first row that satisfies the
    condition. *)
Record DB : Type := {
  iUser : list User.row;
  iRecordVip : list RecordVip.row;
  iRecordGoldCoin : list RecordGoldCoin.row;
  iRecordTranslate : list RecordTranslate.row
}.

(** [let order;] in [completePayment] and [getOrderStatus] holds a row of
    whichever table the product type selects. *)
Inductive Order : Type :=
| OrderVip (r : RecordVip.row)
| OrderGoldCoin (r : RecordGoldCoin.row)
| OrderTranslate (r : RecordTranslate.row).

(** Property reads on [order]; a property the row does not have reads as
    [undefined]. *)
Definition order_orderNo (o : Order) : string :=
  match o with
  | OrderVip r => RecordVip.orderNo r
  | OrderGoldCoin r => RecordGoldCoin.orderNo r
  | OrderTranslate r => RecordTranslate.orderNo r
  end.

Definition order_status (o : Order) : Z :=
  match o with
  | OrderVip r => RecordVip.status r
  | OrderGoldCoin r => RecordGoldCoin.status r
  | OrderTranslate r => RecordTranslate.status r
  end.

Definition order_amount (o : Order) : string :=
  match o with
  | OrderVip r => RecordVip.amount r
  | OrderGoldCoin r => RecordGoldCoin.amount r
  | OrderTranslate r => RecordTranslate.amount r
  end.

Definition order_payTime (o : Order) : option Z :=
  match o with
  | OrderVip r => RecordVip.payTime r
  | OrderGoldCoin r => RecordGoldCoin.payTime r
  | OrderTranslate r => RecordTranslate.payTime r
  end.

Definition order_vipLevel (o : Order) : option number :=
  match o with OrderVip r => RecordVip.vipLevel r | _ => None end.

Definition order_month (o : Order) : option number :=
  match o with OrderVip r => RecordVip.month r | _ => None end.

Definition order_goldCoin (o : Order) : option number :=
  match o with OrderGoldCoin r => RecordGoldCoin.goldCoin r | _ => None end.

Definition order_characterNum (o : Order) : option number :=
  match o with OrderTranslate r => RecordTranslate.characterNum r | _ => None end.

(** ** Requests and responses *)

Module ProductDetails.
Record t : Type := {
  vipLevel : option number;
  month : option number;
  goldCoin : option number;
  giveGoldCoin : option number;
  character : option number
}.
End ProductDetails.

Module InitializeInput.
Record t : Type := {
  amount : string;
  productType : ProductType.t;
  productDetails : ProductDetails.t
}.
End InitializeInput.

Module InitializeOutput.
Record t : Type := {
  success : bool;
  orderNo : string
}.
End InitializeOutput.

Module CompleteInput.
Record t : Type := {
  orderNo : string;
  paypalOrderId : string;
  productType : ProductType.t;
  expectedAmount : number
}.
End CompleteInput.

(** What [verifyPayPalPayment] resolves to; the router reads [verified],
    [error] and [amount]. *)
Module VerificationResult.
Record t : Type := {
  verified : bool;
  amount : option number;
  error : option string
}.
End VerificationResult.

Module CompleteOutput.
Record t : Type := {
  success : bool;
  verificationResult : VerificationResult.t
}.
End CompleteOutput.

Module StatusInput.
Record t : Type := {
  orderNo : string;
  productType : ProductType.t
}.
End StatusInput.

Module StatusOutput.
Record t : Type := {
  orderNo : string;
  status : Z;
  amount : string;
  payTime : option Z
}.
End StatusOutput.

(** Arguments of the three crediting procedures [ctx.recharge.*.mutate]. *)
Module RechargeVip.
Record input : Type := {
  orderNo : string;
  vipLevel : option number;
  month : option number;
  amount : option number;
  paypalOrderId : string
}.
End RechargeVip.

Module RechargeGoldCoin.
Record input : Type := {
  orderNo : string;
  goldCoin : option number;
  amount : option number;
  paypalOrderId : string
}.
End RechargeGoldCoin.

Module RechargeTranslate.
Record input : Type := {
  orderNo : string;
  character : option number;
  amount : option number;
  paypalOrderId : string
}.
End RechargeTranslate.

(** ** The world a procedure runs in *)

(** Calls that leave the router, recorded in the order they are made. *)
Inductive Call : Type :=
| CallVerifyPayPalPayment (paypalOrderId : string) (expectedAmount : number)
| CallRechargeVip (args : RechargeVip.input)
| CallRechargeGoldCoin (args : RechargeGoldCoin.input)
| CallRechargeTranslate (args : RechargeTranslate.input).

Definition isRecharge (c : Call) : bool :=
  match c with
  | CallVerifyPayPalPayment _ _ => false
  | _ => true
  end.

Record World : Type := {
  db : DB;
  calls : list Call;
  console : list (string * Error)
}.

(** What the router does not define itself and only consumes:
    the authenticated principal, the clock and the random source read by
    [generateOrderNo], the storage layer's verdict on the one [insert] of
    [initializePayment], the PayPal verifier of [~/hooks/paypal], and the
    crediting procedures behind [ctx.recharge].  A crediting procedure may
    rewrite the database and may throw. *)
Record Collaborators : Type := {
  userId : string;
  Date_now : Z;
  Math_random_times_1000_floor : Z;
  insertRejected : option Error;
  verifyPayPalPayment : string -> number -> Error + VerificationResult.t;
  rechargeVip : RechargeVip.input -> DB -> DB * option Error;
  rechargeGoldCoin : RechargeGoldCoin.input -> DB -> DB * option Error;
  rechargeTranslate : RechargeTranslate.input -> DB -> DB * option Error
}.

(** ** Computations *)

Inductive Completion (A : Type) : Type :=
| Return (a : A)
| Throw (e : Error).
Arguments Return {A} a.
Arguments Throw {A} e.

Definition M (A : Type) : Type := World -> Completion A * World.

Definition ret {A} (a : A) : M A := fun w => (Return a, w).

Definition throw {A} (e : Error) : M A := fun w => (Throw e, w).

Definition bind {A B} (m : M A) (k : A -> M B) : M B :=
  fun w =>
    match m w with
    | (Return a, w') => k a w'
    | (Throw e, w') => (Throw e, w')
    end.

(** [try { body } catch (error) { handler }] *)
Definition try_catch {A} (body : M A) (handler : Error -> M A) : M A :=
  fun w =>
    match body w with
    | (Return a, w') => (Return a, w')
    | (Throw e, w') => handler e w'
    end.

Declare Scope router_scope.
Delimit Scope router_scope with router.
Notation "x <- m ;; k" := (bind m (fun x => k))
  (at level 61, m at next level, right associativity) : router_scope.
Notation "m ;; k" := (bind m (fun _ => k))
  (at level 61, right associativity) : router_scope.
Open Scope router_scope.

(** [console.error(label, error)] *)
Definition console_error (label : string) (error : Error) : M unit :=
  fun w =>
    (Return tt,
     {| db := db w; calls := calls w; console := console w ++ [(label, error)] |}).

Definition with_db (w : World) (d : DB) : World :=
  {| db := d; calls := calls w; console := console w |}.

Definition record_call (w : World) (c : Call) : World :=
  {| db := db w; calls := calls w ++ [c]; console := console w |}.

(** [ctx.db.query.T.findFirst({ where })] *)
Definition findFirst {R} (table : DB -> list R) (condition : R -> bool) : M (option R) :=
  fun w => (Return (find condition (table (db w))), w).

(** [ctx.db.insert(T).values(row)]: a single statement, which either adds
    the row or is rejected and adds nothing. *)
Definition insert (env : Collaborators) (add : DB -> DB) : M unit :=
  fun w =>
    match insertRejected env with
    | Some e => (Throw e, w)
    | None => (Return tt, with_db w (add (db w)))
    end.

Definition add_iRecordVip (r : RecordVip.row) (d : DB) : DB :=
  {| iUser := iUser d;
     iRecordVip := iRecordVip d ++ [r];
     iRecordGoldCoin := iRecordGoldCoin d;
     iRecordTranslate := iRecordTranslate d |}.

Definition add_iRecordGoldCoin (r : RecordGoldCoin.row) (d : DB) : DB :=
  {| iUser := iUser d;
     iRecordVip := iRecordVip d;
     iRecordGoldCoin := iRecordGoldCoin d ++ [r];
     iRecordTranslate := iRecordTranslate d |}.

Definition add_iRecordTranslate (r : RecordTranslate.row) (d : DB) : DB :=
  {| iUser := iUser d;
     iRecordVip := iRecordVip d;
     iRecordGoldCoin := iRecordGoldCoin d;
     iRecordTranslate := iRecordTranslate d ++ [r] |}.

(** [await verifyPayPalPayment(paypalOrderId, expectedAmount)] *)
Definition await_verifyPayPalPayment (env : Collaborators)
    (paypalOrderId : string) (expectedAmount : number) : M VerificationResult.t :=
  fun w =>
    let w' := record_call w (CallVerifyPayPalPayment paypalOrderId expectedAmount) in
    match verifyPayPalPayment env paypalOrderId expectedAmount with
    | inl e => (Throw e, w')
    | inr r => (Return r, w')
    end.

(** [await ctx.recharge.P.mutate(args)] *)
Definition mutate {I} (procedure : I -> DB -> DB * option Error)
    (event : I -> Call) (args : I) : M unit :=
  fun w =>
    let '(d, thrown) := procedure args (db w) in
    let w' := record_call (with_db w d) (event args) in
    match thrown with
    | Some e => (Throw e, w')
    | None => (Return tt, w')
    end.

(** ** String helpers of [generateOrderNo] *)

(** Decimal rendering of an integral number, as in a template literal or
    [toString()]. *)
Definition toString (n : Z) : string :=
  NilZero.string_of_int (Z.to_int n).

Fixpoint repeat_char (c : ascii) (n : nat) : string :=
  match n with
  | O => EmptyString
  | S n' => String c (repeat_char c n')
  end.

(** [s.padStart(targetLength, c)] for a one-character pad string. *)
Definition padStart (targetLength : nat) (c : ascii) (s : string) : string :=
  (repeat_char c (targetLength - String.length s) ++ s)%string.

(** [a || b] on an optional string: [undefined] and the empty string are
    falsy. *)
Definition or_string (a : option string) (b : string) : string :=
  match a with
  | Some (String c s) => String c s
  | _ => b
  end.

(** ** The router *)

Definition generateOrderNo (env : Collaborators) : string :=
  (toString (Date_now env)
   ++ padStart 3 "0"%char (toString (Math_random_times_1000_floor env)))%string.

Definition initializePayment (env : Collaborators) (input : InitializeInput.t)
  : M InitializeOutput.t :=
  user <- findFirst iUser (fun u => String.eqb (User.clerkId u) (userId env)) ;;
  match user with
  | None => throw (TRPCError NOT_FOUND "用户不存在")
  | Some user =>
    let orderNo := generateOrderNo env in
    try_catch
      ((match InitializeInput.productType input with
        | ProductType.vip | ProductType.svip =>
          insert env (add_iRecordVip
            {| RecordVip.orderNo := orderNo;
               RecordVip.buyUserId := User.id user;
               RecordVip.buyNickname := User.nickname user;
               RecordVip.recipientUserId := User.id user;
               RecordVip.vipLevel :=
                 ProductDetails.vipLevel (InitializeInput.productDetails input);
               RecordVip.month :=
                 ProductDetails.month (InitializeInput.productDetails input);
               RecordVip.amount := InitializeInput.amount input;
               RecordVip.payType := 3;
               RecordVip.status := 0;
               RecordVip.payTime := None |})
        | ProductType.goldCoin =>
          insert env (add_iRecordGoldCoin
            {| RecordGoldCoin.orderNo := orderNo;
               RecordGoldCoin.buyUserId := User.id user;
               RecordGoldCoin.buyNickname := User.nickname user;
               RecordGoldCoin.recipientUserId := User.id user;
               RecordGoldCoin.amount := InitializeInput.amount input;
               RecordGoldCoin.goldCoin :=
                 ProductDetails.goldCoin (InitializeInput.productDetails input);
               RecordGoldCoin.payType := 3;
               RecordGoldCoin.status := 0;
               RecordGoldCoin.payTime := None |})
        | ProductType.translate =>
          insert env (add_iRecordTranslate
            {| RecordTranslate.orderNo := orderNo;
               RecordTranslate.buyUserId := User.id user;
               RecordTranslate.buyNickname := User.nickname user;
               RecordTranslate.recipientUserId := User.id user;
               RecordTranslate.characterNum :=
                 ProductDetails.character (InitializeInput.productDetails input);
               RecordTranslate.amount := InitializeInput.amount input;
               RecordTranslate.payType := 3;
               RecordTranslate.status := 0;
               RecordTranslate.payTime := None |})
        end) ;;
       ret {| InitializeOutput.success := true;
              InitializeOutput.orderNo := orderNo |})
      (fun error =>
         console_error "创建订单失败:" error ;;
         throw (TRPCError INTERNAL_SERVER_ERROR "创建订单失败"))
  end.

(** The [try] block of [completePayment]. *)
Definition completePayment_try (env : Collaborators) (input : CompleteInput.t)
  : M CompleteOutput.t :=
  verificationResult <-
    await_verifyPayPalPayment env
      (CompleteInput.paypalOrderId input) (CompleteInput.expectedAmount input) ;;
  if negb (VerificationResult.verified verificationResult) then
    throw (TRPCError PAYMENT_FAILED
             (or_string (VerificationResult.error verificationResult)
                        "Payment verification failed"))
  else
  order <-
    match CompleteInput.productType input with
    | ProductType.vip | ProductType.svip =>
      r <- findFirst iRecordVip
             (fun r => String.eqb (RecordVip.orderNo r) (CompleteInput.orderNo input)) ;;
      ret (option_map OrderVip r)
    | ProductType.goldCoin =>
      r <- findFirst iRecordGoldCoin
             (fun r => String.eqb (RecordGoldCoin.orderNo r) (CompleteInput.orderNo input)) ;;
      ret (option_map OrderGoldCoin r)
    | ProductType.translate =>
      r <- findFirst iRecordTranslate
             (fun r => String.eqb (RecordTranslate.orderNo r) (CompleteInput.orderNo input)) ;;
      ret (option_map OrderTranslate r)
    end ;;
  match order with
  | None => throw (TRPCError NOT_FOUND "订单不存在")
  | Some order =>
    if negb (order_status order =? 0) then
      throw (TRPCError BAD_REQUEST "订单状态异常")
    else
    match CompleteInput.productType input with
    | ProductType.vip | ProductType.svip =>
      mutate (rechargeVip env) CallRechargeVip
        {| RechargeVip.orderNo := CompleteInput.orderNo input;
           RechargeVip.vipLevel := order_vipLevel order;
           RechargeVip.month := order_month order;
           RechargeVip.amount := VerificationResult.amount verificationResult;
           RechargeVip.paypalOrderId := CompleteInput.paypalOrderId input |}
    | ProductType.goldCoin =>
      mutate (rechargeGoldCoin env) CallRechargeGoldCoin
        {| RechargeGoldCoin.orderNo := CompleteInput.orderNo input;
           RechargeGoldCoin.goldCoin := order_goldCoin order;
           RechargeGoldCoin.amount := VerificationResult.amount verificationResult;
           RechargeGoldCoin.paypalOrderId := CompleteInput.paypalOrderId input |}
    | ProductType.translate =>
      mutate (rechargeTranslate env) CallRechargeTranslate
        {| RechargeTranslate.orderNo := CompleteInput.orderNo input;
           RechargeTranslate.character := order_characterNum order;
           RechargeTranslate.amount := VerificationResult.amount verificationResult;
           RechargeTranslate.paypalOrderId := CompleteInput.paypalOrderId input |}
    end ;;
    ret {| CompleteOutput.success := true;
           CompleteOutput.verificationResult := verificationResult |}
  end.

Definition completePayment (env : Collaborators) (input : CompleteInput.t)
  : M CompleteOutput.t :=
  try_catch (completePayment_try env input)
    (fun error =>
       console_error "支付完成处理失败:" error ;;
       throw error).

Definition getOrderStatus (input : StatusInput.t) : M StatusOutput.t :=
  order <-
    match StatusInput.productType input with
    | ProductType.vip | ProductType.svip =>
      r <- findFirst iRecordVip
             (fun r => String.eqb (RecordVip.orderNo r) (StatusInput.orderNo input)) ;;
      ret (option_map OrderVip r)
    | ProductType.goldCoin =>
      r <- findFirst iRecordGoldCoin
             (fun r => String.eqb (RecordGoldCoin.orderNo r) (StatusInput.orderNo input)) ;;
      ret (option_map OrderGoldCoin r)
    | ProductType.translate =>
      r <- findFirst iRecordTranslate
             (fun r => String.eqb (RecordTranslate.orderNo r) (StatusInput.orderNo input)) ;;
      ret (option_map OrderTranslate r)
    end ;;
  match order with
  | None => throw (TRPCError NOT_FOUND "订单不存在")
  | Some order =>
    ret {| StatusOutput.orderNo := order_orderNo order;
           StatusOutput.status := order_status order;
           StatusOutput.amount := order_amount order;
           StatusOutput.payTime := order_payTime order |}
  end.


(** ** The procedure boundary

    [completePayment] above is the resolver handed to
    [protectedProcedure.mutation].  Whoever calls the procedure does not
    catch what the resolver throws: the tRPC server ([@trpc/server], which
    the router imports and which is not part of the sources at hand)
    converts it on the way out.  A thrown [TRPCError] is handed on as it
    is; any other thrown value is wrapped in a new [TRPCError] with code
    [INTERNAL_SERVER_ERROR] that holds the thrown value as its [cause]. *)
Inductive CallerError : Type :=
| AsThrown (e : Error)
| WrappedInternalServerError (cause : Error).

Definition getTRPCErrorFromUnknown (thrown : Error) : CallerError :=
  match thrown with
  | TRPCError _ _ => AsThrown thrown
  | OtherError _ => WrappedInternalServerError thrown
  end.

Inductive Response (A : Type) : Type :=
| Resolved (a : A)
| Rejected (e : CallerError).
Arguments Resolved {A} a.
Arguments Rejected {A} e.

(** A resolver as seen by the caller of its procedure. *)
Definition procedure {A} (resolver : M A) (w : World) : Response A * World :=
  match resolver w with
  | (Return a, w') => (Resolved a, w')
  | (Throw e, w') => (Rejected (getTRPCErrorFromUnknown e), w')
  end.


(** ** Vocabulary of the statements *)

(** The table a product type selects, read as a list of [Order]s:
    ['vip'] and ['svip'] both select [iRecordVip]. *)
Definition table_of (p : ProductType.t) (d : DB) : list Order :=
  match p with
  | ProductType.vip | ProductType.svip => map OrderVip (iRecordVip d)
  | ProductType.goldCoin => map OrderGoldCoin (iRecordGoldCoin d)
  | ProductType.translate => map OrderTranslate (iRecordTranslate d)
  end.

Definition same_table (p q : ProductType.t) : bool :=
  match p, q with
  | (ProductType.vip | ProductType.svip), (ProductType.vip | ProductType.svip) => true
  | ProductType.goldCoin, ProductType.goldCoin => true
  | ProductType.translate, ProductType.translate => true
  | _, _ => false
  end.

(** The order that [orderNo] designates in the table of [p]: the first row
    carrying that order number, if there is one. *)
Definition stored_order (p : ProductType.t) (orderNo : string) (d : DB) : option Order :=
  find (fun o => String.eqb (order_orderNo o) orderNo) (table_of p d).

Definition order_buyUserId (o : Order) : Z :=
  match o with
  | OrderVip r => RecordVip.buyUserId r
  | OrderGoldCoin r => RecordGoldCoin.buyUserId r
  | OrderTranslate r => RecordTranslate.buyUserId r
  end.

Definition order_recipientUserId (o : Order) : Z :=
  match o with
  | OrderVip r => RecordVip.recipientUserId r
  | OrderGoldCoin r => RecordGoldCoin.recipientUserId r
  | OrderTranslate r => RecordTranslate.recipientUserId r
  end.

Definition order_payType (o : Order) : Z :=
  match o with
  | OrderVip r => RecordVip.payType r
  | OrderGoldCoin r => RecordGoldCoin.payType r
  | OrderTranslate r => RecordTranslate.payType r
  end.

(** The account [ctx.userId] resolves to. *)
Definition resolved_user (env : Collaborators) (d : DB) : option User.row :=
  find (fun u => String.eqb (User.clerkId u) (userId env)) (iUser d).

(** The crediting call [completePayment] issues for a pending [order] once
    the verifier has answered [vr]. *)
Definition crediting_call (input : CompleteInput.t) (order : Order)
    (vr : VerificationResult.t) : Call :=
  match CompleteInput.productType input with
  | ProductType.vip | ProductType.svip =>
    CallRechargeVip
      {| RechargeVip.orderNo := CompleteInput.orderNo input;
         RechargeVip.vipLevel := order_vipLevel order;
         RechargeVip.month := order_month order;
         RechargeVip.amount := VerificationResult.amount vr;
         RechargeVip.paypalOrderId := CompleteInput.paypalOrderId input |}
  | ProductType.goldCoin =>
    CallRechargeGoldCoin
      {| RechargeGoldCoin.orderNo := CompleteInput.orderNo input;
         RechargeGoldCoin.goldCoin := order_goldCoin order;
         RechargeGoldCoin.amount := VerificationResult.amount vr;
         RechargeGoldCoin.paypalOrderId := CompleteInput.paypalOrderId input |}
  | ProductType.translate =>
    CallRechargeTranslate
      {| RechargeTranslate.orderNo := CompleteInput.orderNo input;
         RechargeTranslate.character := order_characterNum order;
         RechargeTranslate.amount := VerificationResult.amount vr;
         RechargeTranslate.paypalOrderId := CompleteInput.paypalOrderId input |}
  end.

(** What the crediting procedure answers to that call: the database it
    leaves and the error it throws, if any. *)
Definition crediting_outcome (env : Collaborators) (c : Call) (d : DB) : DB * option Error :=
  match c with
  | CallRechargeVip args => rechargeVip env args d
  | CallRechargeGoldCoin args => rechargeGoldCoin env args d
  | CallRechargeTranslate args => rechargeTranslate env args d
  | CallVerifyPayPalPayment _ _ => (d, None)
  end.

Definition verify_call (input : CompleteInput.t) : Call :=
  CallVerifyPayPalPayment
    (CompleteInput.paypalOrderId input) (CompleteInput.expectedAmount input).

Definition logged (w : World) (label : string) (e : Error) : World :=
  {| db := db w; calls := calls w; console := console w ++ [(label, e)] |}.

(** ** A concrete shop *)

Definition alice : User.row :=
  {| User.id := 7; User.clerkId := "user_2abc"; User.nickname := Some "alice" |}.

Definition shop_db : DB :=
  {| iUser := [alice]; iRecordVip := []; iRecordGoldCoin := []; iRecordTranslate := [] |}.

Definition shop : World :=
  {| db := shop_db; calls := []; console := [] |}.

Definition verified_9_99 : VerificationResult.t :=
  {| VerificationResult.verified := true;
     VerificationResult.amount := Some (decimal_literal 999 2);
     VerificationResult.error := None |}.

Definition not_verified : VerificationResult.t :=
  {| VerificationResult.verified := false;
     VerificationResult.amount := None;
     VerificationResult.error := None |}.

(** Crediting stubs that acknowledge and touch nothing. *)
Definition acknowledging {I} (_ : I) (d : DB) : DB * option Error := (d, None).


Definition stub_env (insertVerdict : option Error)
    (verifier : string -> number -> Error + VerificationResult.t) : Collaborators :=
  {| userId := "user_2abc";
     Date_now := 1700000000000;
     Math_random_times_1000_floor := 42;
     insertRejected := insertVerdict;
     verifyPayPalPayment := verifier;
     rechargeVip := acknowledging;
     rechargeGoldCoin := acknowledging;
     rechargeTranslate := acknowledging |}.

Definition paying_env : Collaborators :=
  stub_env None (fun _ _ => inr verified_9_99).

Definition refusing_env : Collaborators :=
  stub_env None (fun _ _ => inr not_verified).

Definition goldCoin_500 : InitializeInput.t :=
  {| InitializeInput.amount := "9.99";
     InitializeInput.productType := ProductType.goldCoin;
     InitializeInput.productDetails :=
       {| ProductDetails.vipLevel := None;
          ProductDetails.month := None;
          ProductDetails.goldCoin := Some (decimal_literal 500 0);
          ProductDetails.giveGoldCoin := None;
          ProductDetails.character := None |} |}.

Definition empty_shop : World :=
  {| db := {| iUser := []; iRecordVip := []; iRecordGoldCoin := [];
              iRecordTranslate := [] |};
     calls := []; console := [] |}.

(** The shop after Alice has opened a gold-coin order for 500 coins. *)
Definition pending_shop : World :=
  snd (initializePayment paying_env goldCoin_500 shop).

(** An earlier gold-coin order of Alice, already settled, whose number is
    the one the clock and random source of [stub_env] produce. *)
Definition settled_order : RecordGoldCoin.row :=
  {| RecordGoldCoin.orderNo := "1700000000000042";
     RecordGoldCoin.buyUserId := 7;
     RecordGoldCoin.buyNickname := Some "alice";
     RecordGoldCoin.recipientUserId := 7;
     RecordGoldCoin.amount := "4.99";
     RecordGoldCoin.goldCoin := Some (decimal_literal 100 0);
     RecordGoldCoin.payType := 3;
     RecordGoldCoin.status := 1;
     RecordGoldCoin.payTime := Some 1700000000500 |}.

Definition settled_shop : World :=
  {| db := {| iUser := [alice]; iRecordVip := [];
              iRecordGoldCoin := [settled_order]; iRecordTranslate := [] |};
     calls := []; console := [] |}.

Definition pay_request : CompleteInput.t :=
  {| CompleteInput.orderNo := "1700000000000042";
     CompleteInput.paypalOrderId := "5O190127TN364715T";
     CompleteInput.productType := ProductType.goldCoin;
     CompleteInput.expectedAmount := (decimal_literal 10 0) |}.

Definition status_request : StatusInput.t :=
  {| StatusInput.orderNo := "1700000000000042";
     StatusInput.productType := ProductType.goldCoin |}.

Definition rejecting_env : Collaborators :=
  stub_env (Some (OtherError "ER_DUP_ENTRY")) (fun _ _ => inr verified_9_99).



(** ** Vocabulary of the further statements *)

(** The character of a decimal digit. *)
Definition digit_char (d : Z) : ascii := ascii_of_nat (48 + Z.to_nat d).

(** Two order requests that agree on everything [initializePayment] reads
    for their product type: the amount and the payload fields of that
    type. *)
Definition same_order_request (a b : InitializeInput.t) : Prop :=
  InitializeInput.amount a = InitializeInput.amount b
  /\ InitializeInput.productType a = InitializeInput.productType b
  /\ match InitializeInput.productType a with
     | ProductType.vip | ProductType.svip =>
       ProductDetails.vipLevel (InitializeInput.productDetails a)
       = ProductDetails.vipLevel (InitializeInput.productDetails b)
       /\ ProductDetails.month (InitializeInput.productDetails a)
          = ProductDetails.month (InitializeInput.productDetails b)
     | ProductType.goldCoin =>
       ProductDetails.goldCoin (InitializeInput.productDetails a)
       = ProductDetails.goldCoin (InitializeInput.productDetails b)
     | ProductType.translate =>
       ProductDetails.character (InitializeInput.productDetails a)
       = ProductDetails.character (InitializeInput.productDetails b)
     end.

(** The request that completes the order [initializePayment] has just
    returned under [env]. *)
Definition completion_of (env : Collaborators) (input : InitializeInput.t)
    (paypalOrderId : string) (expectedAmount : number) : CompleteInput.t :=
  {| CompleteInput.orderNo := generateOrderNo env;
     CompleteInput.paypalOrderId := paypalOrderId;
     CompleteInput.productType := InitializeInput.productType input;
     CompleteInput.expectedAmount := expectedAmount |}.

(** A gold-coin crediting stub that settles the order: every row carrying
    the order number gets status 1. *)
Definition settle_goldCoin (args : RechargeGoldCoin.input) (d : DB) : DB * option Error :=
  ({| iUser := iUser d;
      iRecordVip := iRecordVip d;
      iRecordGoldCoin :=
        map (fun r =>
               if String.eqb (RecordGoldCoin.orderNo r) (RechargeGoldCoin.orderNo args)
               then {| RecordGoldCoin.orderNo := RecordGoldCoin.orderNo r;
                       RecordGoldCoin.buyUserId := RecordGoldCoin.buyUserId r;
                       RecordGoldCoin.buyNickname := RecordGoldCoin.buyNickname r;
                       RecordGoldCoin.recipientUserId := RecordGoldCoin.recipientUserId r;
                       RecordGoldCoin.amount := RecordGoldCoin.amount r;
                       RecordGoldCoin.goldCoin := RecordGoldCoin.goldCoin r;
                       RecordGoldCoin.payType := RecordGoldCoin.payType r;
                       RecordGoldCoin.status := 1;
                       RecordGoldCoin.payTime := RecordGoldCoin.payTime r |}
               else r)
            (iRecordGoldCoin d);
      iRecordTranslate := iRecordTranslate d |},
   None).

Definition settling_env : Collaborators :=
  {| userId := "user_2abc";
     Date_now := 1700000000000;
     Math_random_times_1000_floor := 42;
     insertRejected := None;
     verifyPayPalPayment := fun _ _ => inr verified_9_99;
     rechargeVip := acknowledging;
     rechargeGoldCoin := settle_goldCoin;
     rechargeTranslate := acknowledging |}.

(** A crediting stub that settles the order and then fails. *)
Definition settle_then_fail (e : Error) (args : RechargeGoldCoin.input) (d : DB)
  : DB * option Error :=
  (fst (settle_goldCoin args d), Some e).

Definition half_done_env : Collaborators :=
  {| userId := "user_2abc";
     Date_now := 1700000000000;
     Math_random_times_1000_floor := 42;
     insertRejected := None;
     verifyPayPalPayment := fun _ _ => inr verified_9_99;
     rechargeVip := acknowledging;
     rechargeGoldCoin := settle_then_fail (OtherError "deadlock");
     rechargeTranslate := acknowledging |}.

(** A VIP request without the fields a VIP order needs. *)
Definition vip_without_details : InitializeInput.t :=
  {| InitializeInput.amount := "19.99";
     InitializeInput.productType := ProductType.vip;
     InitializeInput.productDetails :=
       {| ProductDetails.vipLevel := None;
          ProductDetails.month := None;
          ProductDetails.goldCoin := None;
          ProductDetails.giveGoldCoin := Some (decimal_literal 50 0);
          ProductDetails.character := None |} |}.

(** Another principal, with no account in [shop]. *)
Definition stranger_env : Collaborators :=
  {| userId := "user_9xyz";
     Date_now := 1700000005000;
     Math_random_times_1000_floor := 7;
     insertRejected := None;
     verifyPayPalPayment := fun _ _ => inr verified_9_99;
     rechargeVip := acknowledging;
     rechargeGoldCoin := acknowledging;
     rechargeTranslate := acknowledging |}.

(** The gold-coin request of [goldCoin_500] with fields of other product
    types filled in as well. *)
Definition goldCoin_500_with_extras : InitializeInput.t :=
  {| InitializeInput.amount := "9.99";
     InitializeInput.productType := ProductType.goldCoin;
     InitializeInput.productDetails :=
       {| ProductDetails.vipLevel := Some (decimal_literal 3 0);
          ProductDetails.month := Some (decimal_literal 12 0);
          ProductDetails.goldCoin := Some (decimal_literal 500 0);
          ProductDetails.giveGoldCoin := Some (decimal_literal 50 0);
          ProductDetails.character := Some (decimal_literal 1000 0) |} |}.

(** A verifier that refuses with an empty error text. *)
Definition refusing_blank_env : Collaborators :=
  stub_env None
    (fun _ _ => inr {| VerificationResult.verified := false;
                       VerificationResult.amount := None;
                       VerificationResult.error := Some EmptyString |}).

(** A pending VIP order of Alice, and a shop that holds it. *)
Definition vip_order : RecordVip.row :=
  {| RecordVip.orderNo := "1700000000000042";
     RecordVip.buyUserId := 7;
     RecordVip.buyNickname := Some "alice";
     RecordVip.recipientUserId := 7;
     RecordVip.vipLevel := Some (decimal_literal 2 0);
     RecordVip.month := Some (decimal_literal 12 0);
     RecordVip.amount := "19.99";
     RecordVip.payType := 3;
     RecordVip.status := 0;
     RecordVip.payTime := None |}.

Definition vip_shop : World :=
  {| db := {| iUser := [alice]; iRecordVip := [vip_order];
              iRecordGoldCoin := []; iRecordTranslate := [] |};
     calls := []; console := [] |}.

Definition vip_request (p : ProductType.t) : InitializeInput.t :=
  {| InitializeInput.amount := "19.99";
     InitializeInput.productType := p;
     InitializeInput.productDetails :=
       {| ProductDetails.vipLevel := Some (decimal_literal 2 0);
          ProductDetails.month := Some (decimal_literal 12 0);
          ProductDetails.goldCoin := None;
          ProductDetails.giveGoldCoin := None;
          ProductDetails.character := None |} |}.

(** * The friend-request panel

    A shallow embedding of [src/components/chat/FriendRequestList.tsx].
    The component is a function from what its hooks hand it (the query
    result, the mutation's loading flag, its own [processingId]) to a
    screen, plus four callbacks that update [processingId] and act on the
    outside: [mutate], [toast], [refetch] and the [onClose] prop.  The
    screen is kept as far as it depends on those inputs: which of the three
    screens is shown, the counts, the rows with the request each displays,
    and every button with its disabled flag, its label and its click
    handler.  Static markup and styling are left out. *)

Module FriendRequestList.

Module FriendRequest.
Record t : Type := {
  id : Z;
  userId : Z;
  name : string;
  avatar : string;
  personalSign : option string;
  region : string;
  timestamp : string;
  remark : string
}.
End FriendRequest.

Module Pagination.
Record t : Type := {
  total : Z;
  pageSize : Z
}.
End Pagination.

(** [data] of [api.relation.getFriendRequests.useQuery]. *)
Module Data.
Record t : Type := {
  requests : list FriendRequest.t;
  pagination : Pagination.t
}.
End Data.

(** What [useQuery] returns, as far as the component reads it. *)
Module Query.
Record t : Type := {
  data : option Data.t;
  isLoading : bool;
  error : option string
}.
End Query.

Inductive ToastVariant : Type := default | destructive.

(** What the component does to the outside.  [OnAccept] and [OnReject]
    stand for calls of the props of those names. *)
Inductive Effect : Type :=
| Mutate (requestId : Z) (accept : bool)
| Toast (title : string) (description : option string) (variant : ToastVariant)
| Refetch
| OnClose
| OnAccept (id : Z)
| OnReject (id : Z).

(** The component between two renders: [processingId] of [useState], and
    the effects issued so far. *)
Module Panel.
Record t : Type := {
  processingId : option Z;
  effects : list Effect
}.
End Panel.

Definition initial : Panel.t :=
  {| Panel.processingId := None; Panel.effects := [] |}.

Definition emit (st : Panel.t) (es : list Effect) : Panel.t :=
  {| Panel.processingId := Panel.processingId st;
     Panel.effects := Panel.effects st ++ es |}.

Definition setProcessingId (v : option Z) (st : Panel.t) : Panel.t :=
  {| Panel.processingId := v; Panel.effects := Panel.effects st |}.

(** [onSuccess: (_, variables) => ...] of the mutation. *)
Definition onSuccess (requestId : Z) (accept : bool) (st : Panel.t) : Panel.t :=
  setProcessingId None
    (emit st
       [Toast (if accept then "好友申请已通过" else "已拒绝好友申请")
              None
              (if accept then default else destructive);
        Refetch]).

(** [onError: (error) => ...] of the mutation. *)
Definition onError (message : string) (st : Panel.t) : Panel.t :=
  setProcessingId None
    (emit st [Toast "操作失败" (Some message) destructive]).

Definition handleAccept (requestId : Z) (st : Panel.t) : Panel.t :=
  emit (setProcessingId (Some requestId) st) [Mutate requestId true].

Definition handleReject (requestId : Z) (st : Panel.t) : Panel.t :=
  emit (setProcessingId (Some requestId) st) [Mutate requestId false].

(** The functions the component hands to [onClick]. *)
Inductive Handler : Type :=
| ClickReject (id : Z)
| ClickAccept (id : Z)
| ClickReload
| ClickClose.

Definition run (h : Handler) (st : Panel.t) : Panel.t :=
  match h with
  | ClickReject id => handleReject id st
  | ClickAccept id => handleAccept id st
  | ClickReload => emit st [Refetch]
  | ClickClose => emit st [OnClose]
  end.

Inductive Label : Type :=
| Spinner
| Icon
| Caption (text : string).

Module Button.
Record t : Type := {
  disabled : bool;
  label : Label;
  onClick : Handler
}.
End Button.

(** One entry of the list: the request it displays, whether the
    [personalSign] paragraph is rendered, and its two buttons. *)
Module Row.
Record t : Type := {
  key : Z;
  request : FriendRequest.t;
  showsPersonalSign : bool;
  reject : Button.t;
  accept : Button.t
}.
End Row.

Inductive Body : Type :=
| EmptyNotice
| Rows (rows : list Row.t)
| Nothing.

(** The footer line: the total and the number of requests displayed. *)
Inductive Screen : Type :=
| LoadingScreen
| ErrorScreen (reload : Button.t)
| ListScreen (count : Z) (close : Button.t) (body : Body) (footer : option (Z * nat)).

(** Truthiness of an optional string. *)
Definition truthy (s : option string) : bool :=
  match s with
  | Some (String _ _) => true
  | _ => false
  end.

(** [processingId === request.id] *)
Definition isProcessing (st : Panel.t) (id : Z) : bool :=
  match Panel.processingId st with
  | Some p => Z.eqb p id
  | None => false
  end.

Definition renderRow (st : Panel.t) (request : FriendRequest.t) : Row.t :=
  {| Row.key := FriendRequest.id request;
     Row.request := request;
     Row.showsPersonalSign := truthy (FriendRequest.personalSign request);
     Row.reject :=
       {| Button.disabled := isProcessing st (FriendRequest.id request);
          Button.label :=
            if isProcessing st (FriendRequest.id request)
            then Spinner else Caption "拒绝";
          Button.onClick := ClickReject (FriendRequest.id request) |};
     Row.accept :=
       {| Button.disabled := isProcessing st (FriendRequest.id request);
          Button.label :=
            if isProcessing st (FriendRequest.id request)
            then Spinner else Caption "通过";
          Button.onClick := ClickAccept (FriendRequest.id request) |} |}.

(** The component's render: [mutationIsLoading] is
    [handleFriendRequest.isLoading]. *)
Definition render (query : Query.t) (mutationIsLoading : bool) (st : Panel.t) : Screen :=
  if Query.isLoading query then LoadingScreen
  else
    match Query.error query with
    | Some _ =>
      ErrorScreen
        {| Button.disabled := false;
           Button.label := Caption "重新加载";
           Button.onClick := ClickReload |}
    | None =>
      ListScreen
        (match Query.data query with
         | Some d =>
           if Z.eqb (Pagination.total (Data.pagination d)) 0 then 0
           else Pagination.total (Data.pagination d)
         | None => 0
         end)
        {| Button.disabled := mutationIsLoading;
           Button.label := Icon;
           Button.onClick := ClickClose |}
        (match Query.data query with
         | Some d =>
           if Nat.eqb (List.length (Data.requests d)) 0 then EmptyNotice
           else Rows (map (renderRow st) (Data.requests d))
         | None => Nothing
         end)
        (match Query.data query with
         | Some d =>
           if Z.gtb (Pagination.total (Data.pagination d))
                    (Pagination.pageSize (Data.pagination d))
           then Some (Pagination.total (Data.pagination d),
                      List.length (Data.requests d))
           else None
         | None => None
         end)
    end.

(** The buttons of a screen. *)
Definition buttons (s : Screen) : list Button.t :=
  match s with
  | LoadingScreen => []
  | ErrorScreen reload => [reload]
  | ListScreen _ close body _ =>
    close ::
    match body with
    | Rows rows => flat_map (fun r => [Row.reject r; Row.accept r]) rows
    | _ => []
    end
  end.

(** A press on a button: a disabled button does not react. *)
Definition press (b : Button.t) (st : Panel.t) : Panel.t :=
  if Button.disabled b then st else run (Button.onClick b) st.

(** What can happen to a mounted panel. *)
Inductive Event : Type :=
| Press (b : Button.t)
| MutationSucceeded (requestId : Z) (accept : bool)
| MutationFailed (message : string).

Definition handle (st : Panel.t) (ev : Event) : Panel.t :=
  match ev with
  | Press b => press b st
  | MutationSucceeded requestId accept => onSuccess requestId accept st
  | MutationFailed message => onError message st
  end.

Definition session (evs : list Event) (st : Panel.t) : Panel.t :=
  fold_left handle evs st.

Definition isPropCall (e : Effect) : bool :=
  match e with
  | OnAccept _ | OnReject _ => true
  | _ => false
  end.

Definition isMutate (e : Effect) : bool :=
  match e with
  | Mutate _ _ => true
  | _ => false
  end.

Definition isRefetch (e : Effect) : bool :=
  match e with
  | Refetch => true
  | _ => false
  end.

(** The rows of a screen. *)
Definition rows_of (s : Screen) : list Row.t :=
  match s with
  | ListScreen _ _ (Rows rows) _ => rows
  | _ => []
  end.

(** A query result that shows the list. *)
Definition loaded (d : Data.t) : Query.t :=
  {| Query.data := Some d; Query.isLoading := false; Query.error := None |}.

Definition request_of (id : Z) (name : string) : FriendRequest.t :=
  {| FriendRequest.id := id;
     FriendRequest.userId := id + 100;
     FriendRequest.name := name;
     FriendRequest.avatar := "/avatars/default.png";
     FriendRequest.personalSign := None;
     FriendRequest.region := "Berlin";
     FriendRequest.timestamp := "2024-05-01 10:00";
     FriendRequest.remark := "hi" |}.

Definition two_requests : Data.t :=
  {| Data.requests := [request_of 11 "bob"; request_of 12 "carol"];
     Data.pagination := {| Pagination.total := 2; Pagination.pageSize := 20 |} |}.

Definition isToast (e : Effect) : bool :=
  match e with
  | Toast _ _ _ => true
  | _ => false
  end.

(** Events by kind: a completed mutation, a failed one, a press on an
    enabled reload button. *)
Definition isSuccess (ev : Event) : bool :=
  match ev with
  | MutationSucceeded _ _ => true
  | _ => false
  end.

Definition isFailure (ev : Event) : bool :=
  match ev with
  | MutationFailed _ => true
  | _ => false
  end.

Definition isReload (ev : Event) : bool :=
  match ev with
  | Press b =>
    negb (Button.disabled b)
    && match Button.onClick b with ClickReload => true | _ => false end
  | _ => false
  end.

Definition count {A} (p : A -> bool) (l : list A) : nat :=
  List.length (filter p l).

Definition busy (r : Row.t) : bool := Button.disabled (Row.accept r).

(** A panel in which the request [id] is marked as being processed. *)
Definition processing (id : Z) : Panel.t :=
  {| Panel.processingId := Some id; Panel.effects := [Mutate id true] |}.

End FriendRequestList.

(** ** Proof steps *)

Ltac unfold_monad :=
  unfold bind, ret, throw, try_catch, findFirst, console_error.

Ltac four_parts := split; [|split; [|split]].

(** Runs [initializePayment] up to the account look-up, whose result is
    given by [Huser]. *)
Ltac run_initialize Huser :=
  unfold initializePayment, insert; unfold_monad;
  match type of Huser with
  | resolved_user ?env ?d = _ =>
    change (find (fun u => String.eqb (User.clerkId u) (userId env)) (iUser d))
      with (resolved_user env d)
  end;
  rewrite Huser.

(** ** Basic facts *)

Lemma find_map_compose {A B} (f : B -> bool) (g : A -> B) (l : list A) :
  find f (map g l) = option_map g (find (fun a => f (g a)) l).
Proof.
  induction l as [|a l IH]; simpl; [reflexivity|].
  destruct (f (g a)); [reflexivity | exact IH].
Qed.

Lemma find_none_iff {A} (f : A -> bool) (l : list A) :
  find f l = None <-> (forall a, In a l -> f a = false).
Proof.
  split.
  - intros H a Ha. exact (find_none f l H a Ha).
  - induction l as [|a l IH]; simpl; intros H; [reflexivity|].
    rewrite (H a (or_introl eq_refl)). apply IH.
    intros b Hb. apply H. right. exact Hb.
Qed.

Lemma find_app_fresh {A} (f : A -> bool) (l : list A) (a : A) :
  (forall b, In b l -> f b = false) -> f a = true ->
  find f (l ++ [a]) = Some a.
Proof.
  induction l as [|b l IH]; simpl; intros Hl Ha.
  - rewrite Ha. reflexivity.
  - rewrite (Hl b (or_introl eq_refl)). apply IH; [|exact Ha].
    intros c Hc. apply Hl. right. exact Hc.
Qed.

(** [generateOrderNo] pads the random part to three digits. *)
Example generateOrderNo_pads_suffix :
  generateOrderNo
    {| userId := "user_2abc";
       Date_now := 1700000000000;
       Math_random_times_1000_floor := 5;
       insertRejected := None;
       verifyPayPalPayment := fun _ _ => inr not_verified;
       rechargeVip := acknowledging;
       rechargeGoldCoin := acknowledging;
       rechargeTranslate := acknowledging |}
  = "1700000000000005".
Proof. reflexivity. Qed.

Lemma stored_order_vip orderNo d :
  stored_order ProductType.vip orderNo d =
  option_map OrderVip
    (find (fun r => String.eqb (RecordVip.orderNo r) orderNo) (iRecordVip d)).
Proof. unfold stored_order. simpl. apply find_map_compose. Qed.

Lemma stored_order_svip orderNo d :
  stored_order ProductType.svip orderNo d =
  option_map OrderVip
    (find (fun r => String.eqb (RecordVip.orderNo r) orderNo) (iRecordVip d)).
Proof. unfold stored_order. simpl. apply find_map_compose. Qed.

Lemma stored_order_goldCoin orderNo d :
  stored_order ProductType.goldCoin orderNo d =
  option_map OrderGoldCoin
    (find (fun r => String.eqb (RecordGoldCoin.orderNo r) orderNo) (iRecordGoldCoin d)).
Proof. unfold stored_order. simpl. apply find_map_compose. Qed.

Lemma stored_order_translate orderNo d :
  stored_order ProductType.translate orderNo d =
  option_map OrderTranslate
    (find (fun r => String.eqb (RecordTranslate.orderNo r) orderNo) (iRecordTranslate d)).
Proof. unfold stored_order. simpl. apply find_map_compose. Qed.

Lemma stored_order_none_iff p orderNo d :
  stored_order p orderNo d = None <->
  (forall o, In o (table_of p d) -> order_orderNo o <> orderNo).
Proof.
  unfold stored_order. rewrite find_none_iff. split; intros H o Ho.
  - apply String.eqb_neq. apply H. exact Ho.
  - apply String.eqb_neq. apply H. exact Ho.
Qed.

Lemma stored_order_some p orderNo d o :
  stored_order p orderNo d = Some o ->
  In o (table_of p d) /\ order_orderNo o = orderNo.
Proof.
  unfold stored_order. intros H. apply find_some in H. destruct H as [Hin Heq].
  split; [exact Hin | apply String.eqb_eq; exact Heq].
Qed.

(** Case analysis on the product type, with the look-up of each branch
    read as [stored_order]. *)
Ltac by_product p :=
  destruct p; simpl;
  rewrite ?stored_order_vip, ?stored_order_svip,
          ?stored_order_goldCoin, ?stored_order_translate.

(** The whole of [getOrderStatus] as one equation. *)
Lemma getOrderStatus_eq (input : StatusInput.t) (w : World) :
  getOrderStatus input w =
  (match stored_order (StatusInput.productType input) (StatusInput.orderNo input) (db w) with
   | None => Throw (TRPCError NOT_FOUND "订单不存在")
   | Some order =>
     Return {| StatusOutput.orderNo := order_orderNo order;
               StatusOutput.status := order_status order;
               StatusOutput.amount := order_amount order;
               StatusOutput.payTime := order_payTime order |}
   end, w).
Proof.
  unfold getOrderStatus. unfold_monad.
  by_product (StatusInput.productType input);
    match goal with |- context [find ?f ?l] => destruct (find f l) end;
    reflexivity.
Qed.

(** The [try] block of [completePayment], stage by stage. *)
Lemma completePayment_try_eq (env : Collaborators) (input : CompleteInput.t) (w : World) :
  completePayment_try env input w =
  let w1 := record_call w (verify_call input) in
  match verifyPayPalPayment env
          (CompleteInput.paypalOrderId input) (CompleteInput.expectedAmount input) with
  | inl e => (Throw e, w1)
  | inr vr =>
    if negb (VerificationResult.verified vr) then
      (Throw (TRPCError PAYMENT_FAILED
                (or_string (VerificationResult.error vr) "Payment verification failed")),
       w1)
    else
      match stored_order (CompleteInput.productType input)
                         (CompleteInput.orderNo input) (db w) with
      | None => (Throw (TRPCError NOT_FOUND "订单不存在"), w1)
      | Some order =>
        if negb (order_status order =? 0) then
          (Throw (TRPCError BAD_REQUEST "订单状态异常"), w1)
        else
          let c := crediting_call input order vr in
          let w2 := record_call (with_db w1 (fst (crediting_outcome env c (db w)))) c in
          match snd (crediting_outcome env c (db w)) with
          | Some e => (Throw e, w2)
          | None =>
            (Return {| CompleteOutput.success := true;
                       CompleteOutput.verificationResult := vr |}, w2)
          end
      end
  end.
Proof.
  unfold completePayment_try, await_verifyPayPalPayment, verify_call, crediting_call.
  unfold_monad. cbv zeta.
  destruct (verifyPayPalPayment env _ _) as [e|vr]; [reflexivity|].
  destruct (VerificationResult.verified vr); simpl; [|reflexivity].
  by_product (CompleteInput.productType input);
    match goal with |- context [find ?f ?l] => destruct (find f l) as [r|] end;
    simpl; try reflexivity;
    match goal with |- context [?x =? 0] => destruct (x =? 0) end;
    simpl; try reflexivity;
    unfold mutate; simpl;
    match goal with |- context [?f ?a (db w)] =>
      match type of (f a (db w)) with (DB * option Error)%type =>
        destruct (f a (db w)) as [d [e|]] end end;
    reflexivity.
Qed.

(** The [catch] clause of [completePayment]: log, then throw what was
    caught. *)
Lemma completePayment_catch (env : Collaborators) (input : CompleteInput.t) (w : World) :
  completePayment env input w =
  match completePayment_try env input w with
  | (Return a, w') => (Return a, w')
  | (Throw e, w') => (Throw e, logged w' "支付完成处理失败:" e)
  end.
Proof.
  unfold completePayment. unfold_monad.
  destruct (completePayment_try env input w) as [[a|e] w']; reflexivity.
Qed.


(** [initializePayment] without a resolvable caller. *)
Lemma initializePayment_unresolved
    (env : Collaborators) (input : InitializeInput.t) (w : World)
    (Huser : resolved_user env (db w) = None) :
  initializePayment env input w = (Throw (TRPCError NOT_FOUND "用户不存在"), w).
Proof. run_initialize Huser. reflexivity. Qed.

(** [initializePayment] when the storage layer rejects the insert. *)
Lemma initializePayment_rejected
    (env : Collaborators) (input : InitializeInput.t) (w : World)
    (user : User.row) (e : Error)
    (Huser : resolved_user env (db w) = Some user)
    (Hrejected : insertRejected env = Some e) :
  initializePayment env input w
  = (Throw (TRPCError INTERNAL_SERVER_ERROR "创建订单失败"),
     logged w "创建订单失败:" e).
Proof.
  run_initialize Huser. rewrite Hrejected.
  destruct (InitializeInput.productType input); reflexivity.
Qed.

(** ** Properties of [completePayment] *)

(** C4.  When the provider verifier answers [verified: false],
    [completePayment] throws [PAYMENT_FAILED], the only outside call it has
    made is the verification itself (no crediting procedure is invoked), and
    the database, hence the stored order and its status, is what it was. *)
Theorem completePayment_unverified_fails
    (env : Collaborators) (input : CompleteInput.t) (w : World)
    (vr : VerificationResult.t)
    (Hverify : verifyPayPalPayment env (CompleteInput.paypalOrderId input)
                 (CompleteInput.expectedAmount input) = inr vr)
    (Hrejected : VerificationResult.verified vr = false) :
  let failure :=
    TRPCError PAYMENT_FAILED
      (or_string (VerificationResult.error vr) "Payment verification failed") in
  fst (completePayment env input w) = Throw failure
  /\ db (snd (completePayment env input w)) = db w
  /\ calls (snd (completePayment env input w)) = calls w ++ [verify_call input]
  /\ existsb isRecharge [verify_call input] = false
  /\ (forall order,
        stored_order (CompleteInput.productType input)
          (CompleteInput.orderNo input) (db w) = Some order ->
        stored_order (CompleteInput.productType input)
          (CompleteInput.orderNo input) (db (snd (completePayment env input w)))
        = Some order).
Proof.
  intros failure. subst failure.
  rewrite completePayment_catch, completePayment_try_eq. cbv zeta.
  rewrite Hverify, Hrejected. simpl.
  repeat split. intros order H. exact H.
Qed.

(** C1 (as amended).  When the order designated by [orderNo] has a stored
    status other than 0, [completePayment] always fails, invokes no
    crediting procedure and leaves the database as it was; the failure is
    [BAD_REQUEST] (the router's code for an invalid order state) whenever
    the verifier has answered [verified: true]. *)
Theorem completePayment_not_pending
    (env : Collaborators) (input : CompleteInput.t) (w : World) (order : Order)
    (Horder : stored_order (CompleteInput.productType input)
                (CompleteInput.orderNo input) (db w) = Some order)
    (Hstatus : order_status order <> 0) :
  (exists e, fst (completePayment env input w) = Throw e)
  /\ calls (snd (completePayment env input w)) = calls w ++ [verify_call input]
  /\ db (snd (completePayment env input w)) = db w
  /\ (forall vr,
        verifyPayPalPayment env (CompleteInput.paypalOrderId input)
          (CompleteInput.expectedAmount input) = inr vr ->
        VerificationResult.verified vr = true ->
        fst (completePayment env input w)
        = Throw (TRPCError BAD_REQUEST "订单状态异常")).
Proof.
  apply Z.eqb_neq in Hstatus.
  rewrite completePayment_catch, completePayment_try_eq. cbv zeta.
  rewrite Horder, Hstatus.
  destruct (verifyPayPalPayment env _ _) as [e|vr].
  - simpl. four_parts; [eexists; reflexivity | reflexivity | reflexivity |].
    intros vr H. discriminate H.
  - destruct (VerificationResult.verified vr) eqn:Hok; simpl.
    + four_parts; [eexists; reflexivity | reflexivity | reflexivity |].
      intros vr' H _. reflexivity.
    + four_parts; [eexists; reflexivity | reflexivity | reflexivity |].
      intros vr' H Hok'. injection H as <-. congruence.
Qed.

(** C5 (as amended).  When [orderNo] matches no order in the table the
    product type selects, [completePayment] always fails, invokes no
    crediting procedure and leaves the database as it was; the failure is
    [NOT_FOUND] whenever the verifier has answered [verified: true]. *)
Theorem completePayment_unknown_order
    (env : Collaborators) (input : CompleteInput.t) (w : World)
    (Hunknown : forall o,
        In o (table_of (CompleteInput.productType input) (db w)) ->
        order_orderNo o <> CompleteInput.orderNo input) :
  (exists e, fst (completePayment env input w) = Throw e)
  /\ calls (snd (completePayment env input w)) = calls w ++ [verify_call input]
  /\ db (snd (completePayment env input w)) = db w
  /\ (forall vr,
        verifyPayPalPayment env (CompleteInput.paypalOrderId input)
          (CompleteInput.expectedAmount input) = inr vr ->
        VerificationResult.verified vr = true ->
        fst (completePayment env input w)
        = Throw (TRPCError NOT_FOUND "订单不存在")).
Proof.
  apply stored_order_none_iff in Hunknown.
  rewrite completePayment_catch, completePayment_try_eq. cbv zeta.
  rewrite Hunknown.
  destruct (verifyPayPalPayment env _ _) as [e|vr].
  - simpl. four_parts; [eexists; reflexivity | reflexivity | reflexivity |].
    intros vr H. discriminate H.
  - destruct (VerificationResult.verified vr) eqn:Hok; simpl.
    + four_parts; [eexists; reflexivity | reflexivity | reflexivity |].
      intros vr' H _. reflexivity.
    + four_parts; [eexists; reflexivity | reflexivity | reflexivity |].
      intros vr' H Hok'. injection H as <-. congruence.
Qed.

(** C2.  When [completePayment] reaches the crediting step (the verifier
    answered [verified: true] with result [vr], and [orderNo] designates a
    stored order with status 0), the calls it makes are the verification
    followed by exactly one crediting call, to the procedure of the product
    type, carrying the request's [orderNo], the payload columns of the
    stored row, [vr.amount] and the request's [paypalOrderId]. *)
Theorem completePayment_credits_confirmed_amount
    (env : Collaborators) (input : CompleteInput.t) (w : World)
    (vr : VerificationResult.t) (order : Order)
    (Hverify : verifyPayPalPayment env (CompleteInput.paypalOrderId input)
                 (CompleteInput.expectedAmount input) = inr vr)
    (Hverified : VerificationResult.verified vr = true)
    (Horder : stored_order (CompleteInput.productType input)
                (CompleteInput.orderNo input) (db w) = Some order)
    (Hpending : order_status order = 0) :
  calls (snd (completePayment env input w)) =
    calls w ++
    [CallVerifyPayPalPayment
       (CompleteInput.paypalOrderId input) (CompleteInput.expectedAmount input);
     match CompleteInput.productType input with
     | ProductType.vip | ProductType.svip =>
       CallRechargeVip
         {| RechargeVip.orderNo := CompleteInput.orderNo input;
            RechargeVip.vipLevel := order_vipLevel order;
            RechargeVip.month := order_month order;
            RechargeVip.amount := VerificationResult.amount vr;
            RechargeVip.paypalOrderId := CompleteInput.paypalOrderId input |}
     | ProductType.goldCoin =>
       CallRechargeGoldCoin
         {| RechargeGoldCoin.orderNo := CompleteInput.orderNo input;
            RechargeGoldCoin.goldCoin := order_goldCoin order;
            RechargeGoldCoin.amount := VerificationResult.amount vr;
            RechargeGoldCoin.paypalOrderId := CompleteInput.paypalOrderId input |}
     | ProductType.translate =>
       CallRechargeTranslate
         {| RechargeTranslate.orderNo := CompleteInput.orderNo input;
            RechargeTranslate.character := order_characterNum order;
            RechargeTranslate.amount := VerificationResult.amount vr;
            RechargeTranslate.paypalOrderId := CompleteInput.paypalOrderId input |}
     end]
  /\ (snd (crediting_outcome env (crediting_call input order vr) (db w)) = None ->
      fst (completePayment env input w)
      = Return {| CompleteOutput.success := true;
                  CompleteOutput.verificationResult := vr |}).
Proof.
  apply Z.eqb_eq in Hpending.
  rewrite completePayment_catch, completePayment_try_eq. cbv zeta.
  rewrite Hverify, Hverified, Horder, Hpending. simpl.
  destruct (snd (crediting_outcome env _ _)) as [e|] eqn:Hout; simpl;
    rewrite <- app_assoc; (split; [reflexivity|]).
  - intros H. discriminate H.
  - intros _. reflexivity.
Qed.


(** ** Properties of [getOrderStatus] *)

(** C8.  [getOrderStatus] changes nothing (database, outside calls and
    console are what they were); it throws [NOT_FOUND] when no row of the
    table selected by the product type carries [orderNo], and otherwise
    returns the [orderNo], [status], [amount] and [payTime] columns of the
    stored order that [orderNo] designates. *)
Theorem getOrderStatus_pure_read (input : StatusInput.t) (w : World) :
  snd (getOrderStatus input w) = w
  /\ ((forall o, In o (table_of (StatusInput.productType input) (db w)) ->
                 order_orderNo o <> StatusInput.orderNo input) ->
      fst (getOrderStatus input w) = Throw (TRPCError NOT_FOUND "订单不存在"))
  /\ ((exists o, In o (table_of (StatusInput.productType input) (db w))
                 /\ order_orderNo o = StatusInput.orderNo input) ->
      exists order,
        stored_order (StatusInput.productType input) (StatusInput.orderNo input) (db w)
        = Some order
        /\ In order (table_of (StatusInput.productType input) (db w))
        /\ fst (getOrderStatus input w)
           = Return {| StatusOutput.orderNo := StatusInput.orderNo input;
                       StatusOutput.status := order_status order;
                       StatusOutput.amount := order_amount order;
                       StatusOutput.payTime := order_payTime order |}).
Proof.
  rewrite getOrderStatus_eq. simpl. split; [reflexivity|]. split.
  - intros H. apply stored_order_none_iff in H. rewrite H. reflexivity.
  - intros (o & Hin & Hno).
    destruct (stored_order _ _ _) as [order|] eqn:Ho.
    + exists order. destruct (stored_order_some _ _ _ _ Ho) as [Hin' Hno'].
      rewrite Hno'. repeat split. exact Hin'.
    + exfalso. apply (proj1 (stored_order_none_iff _ _ _) Ho o Hin Hno).
Qed.

(** ** ['vip'] and ['svip'] *)

(** C9.  Under ['vip'] and under ['svip'] alike the three procedures work
    on the table [iRecordVip].  [initializePayment] appends its row to
    [iRecordVip] when the insert is accepted, and in no case touches
    [iRecordGoldCoin] or [iRecordTranslate]; [getOrderStatus] answers with
    the first row of [iRecordVip] that carries the order number, or with
    [NOT_FOUND] when [iRecordVip] has none; [completePayment], once the
    payment is verified, looks the order up in [iRecordVip] and credits
    through [rechargeVip] with that row's level and months.  Swapping
    ['vip'] for ['svip'] with all other inputs equal changes neither the
    completion nor the world of any of the three. *)
Theorem vip_svip_indistinguishable
    (env : Collaborators) (w : World) (p : ProductType.t)
    (Hp : p = ProductType.vip \/ p = ProductType.svip) :
  (forall amount details user,
      resolved_user env (db w) = Some user ->
      insertRejected env = None ->
      let w' :=
        snd (initializePayment env
               {| InitializeInput.amount := amount;
                  InitializeInput.productType := p;
                  InitializeInput.productDetails := details |} w) in
      iRecordVip (db w')
      = iRecordVip (db w)
        ++ [{| RecordVip.orderNo := generateOrderNo env;
               RecordVip.buyUserId := User.id user;
               RecordVip.buyNickname := User.nickname user;
               RecordVip.recipientUserId := User.id user;
               RecordVip.vipLevel := ProductDetails.vipLevel details;
               RecordVip.month := ProductDetails.month details;
               RecordVip.amount := amount;
               RecordVip.payType := 3;
               RecordVip.status := 0;
               RecordVip.payTime := None |}])
  /\ (forall amount details,
        let w' :=
          snd (initializePayment env
                 {| InitializeInput.amount := amount;
                    InitializeInput.productType := p;
                    InitializeInput.productDetails := details |} w) in
        iRecordGoldCoin (db w') = iRecordGoldCoin (db w)
        /\ iRecordTranslate (db w') = iRecordTranslate (db w))
  /\ (forall orderNo,
        getOrderStatus
          {| StatusInput.orderNo := orderNo; StatusInput.productType := p |} w
        = (match find (fun r => String.eqb (RecordVip.orderNo r) orderNo)
                      (iRecordVip (db w)) with
           | None => Throw (TRPCError NOT_FOUND "订单不存在")
           | Some r =>
             Return {| StatusOutput.orderNo := RecordVip.orderNo r;
                       StatusOutput.status := RecordVip.status r;
                       StatusOutput.amount := RecordVip.amount r;
                       StatusOutput.payTime := RecordVip.payTime r |}
           end, w))
  /\ (forall orderNo paypalOrderId expectedAmount vr,
        verifyPayPalPayment env paypalOrderId expectedAmount = inr vr ->
        VerificationResult.verified vr = true ->
        let run :=
          completePayment env
            {| CompleteInput.orderNo := orderNo;
               CompleteInput.paypalOrderId := paypalOrderId;
               CompleteInput.productType := p;
               CompleteInput.expectedAmount := expectedAmount |} w in
        match find (fun r => String.eqb (RecordVip.orderNo r) orderNo)
                   (iRecordVip (db w)) with
        | None =>
          fst run = Throw (TRPCError NOT_FOUND "订单不存在")
          /\ calls (snd run)
             = calls w ++ [CallVerifyPayPalPayment paypalOrderId expectedAmount]
        | Some r =>
          if RecordVip.status r =? 0 then
            calls (snd run)
            = calls w ++
              [CallVerifyPayPalPayment paypalOrderId expectedAmount;
               CallRechargeVip
                 {| RechargeVip.orderNo := orderNo;
                    RechargeVip.vipLevel := RecordVip.vipLevel r;
                    RechargeVip.month := RecordVip.month r;
                    RechargeVip.amount := VerificationResult.amount vr;
                    RechargeVip.paypalOrderId := paypalOrderId |}]
          else
            fst run = Throw (TRPCError BAD_REQUEST "订单状态异常")
            /\ calls (snd run)
               = calls w ++ [CallVerifyPayPalPayment paypalOrderId expectedAmount]
        end)
  /\ (forall amount details,
        initializePayment env
          {| InitializeInput.amount := amount;
             InitializeInput.productType := ProductType.vip;
             InitializeInput.productDetails := details |} w
        = initializePayment env
            {| InitializeInput.amount := amount;
               InitializeInput.productType := ProductType.svip;
               InitializeInput.productDetails := details |} w)
  /\ (forall orderNo paypalOrderId expectedAmount,
        completePayment env
          {| CompleteInput.orderNo := orderNo;
             CompleteInput.paypalOrderId := paypalOrderId;
             CompleteInput.productType := ProductType.vip;
             CompleteInput.expectedAmount := expectedAmount |} w
        = completePayment env
            {| CompleteInput.orderNo := orderNo;
               CompleteInput.paypalOrderId := paypalOrderId;
               CompleteInput.productType := ProductType.svip;
               CompleteInput.expectedAmount := expectedAmount |} w)
  /\ (forall orderNo,
        getOrderStatus
          {| StatusInput.orderNo := orderNo;
             StatusInput.productType := ProductType.vip |} w
        = getOrderStatus
            {| StatusInput.orderNo := orderNo;
               StatusInput.productType := ProductType.svip |} w).
Proof.
  split; [|split; [|split; [|split; [|split; [|split]]]]].
  - intros amount details user Huser Haccepted. cbv zeta.
    run_initialize Huser. rewrite Haccepted.
    destruct Hp as [-> | ->]; reflexivity.
  - intros amount details. cbv zeta.
    destruct (resolved_user env (db w)) as [user|] eqn:Huser.
    2:{ rewrite (initializePayment_unresolved env _ w Huser). split; reflexivity. }
    destruct (insertRejected env) as [e|] eqn:Hrej.
    { rewrite (initializePayment_rejected env _ w user e Huser Hrej).
      split; reflexivity. }
    run_initialize Huser. rewrite Hrej.
    destruct Hp as [-> | ->]; split; reflexivity.
  - intros orderNo. unfold getOrderStatus. unfold_monad.
    destruct Hp as [-> | ->]; simpl;
      destruct (find _ (iRecordVip (db w))); reflexivity.
  - intros orderNo paypalOrderId expectedAmount vr Hverify Hverified. cbv zeta.
    rewrite completePayment_catch, completePayment_try_eq. cbv zeta. simpl.
    rewrite Hverify, Hverified. simpl.
    assert (Hlookup : stored_order p orderNo (db w)
                      = option_map OrderVip
                          (find (fun r => String.eqb (RecordVip.orderNo r) orderNo)
                                (iRecordVip (db w)))).
    { destruct Hp as [-> | ->];
        [apply stored_order_vip | apply stored_order_svip]. }
    rewrite Hlookup.
    destruct (find _ (iRecordVip (db w))) as [r|]; simpl.
    2:{ split; reflexivity. }
    destruct (RecordVip.status r =? 0); simpl.
    2:{ split; reflexivity. }
    unfold verify_call, crediting_call. simpl.
    destruct Hp as [-> | ->]; simpl;
      destruct (snd (rechargeVip env _ (db w))); simpl;
      rewrite <- app_assoc; reflexivity.
  - intros amount details. reflexivity.
  - intros orderNo paypalOrderId expectedAmount. reflexivity.
  - intros orderNo. reflexivity.
Qed.

(** ** Properties of [initializePayment] *)

(** C6.  When [ctx.userId] resolves to no account, [initializePayment]
    throws [NOT_FOUND] and the world (database included) is untouched.
    When the account resolves and the insert is rejected with some error,
    it throws [INTERNAL_SERVER_ERROR]; the database is exactly what it was
    (no row in any table), no outside call was made, and the only trace is
    the console line reporting the rejection. *)
Theorem initializePayment_failures
    (env : Collaborators) (input : InitializeInput.t) (w : World) :
  (resolved_user env (db w) = None ->
   initializePayment env input w = (Throw (TRPCError NOT_FOUND "用户不存在"), w))
  /\ (forall user e,
        resolved_user env (db w) = Some user ->
        insertRejected env = Some e ->
        initializePayment env input w
        = (Throw (TRPCError INTERNAL_SERVER_ERROR "创建订单失败"),
           {| db := db w;
              calls := calls w;
              console := console w ++ [("创建订单失败:", e)] |})).
Proof.
  split.
  - intros Huser. apply initializePayment_unresolved. exact Huser.
  - intros user e Huser Hrej.
    rewrite (initializePayment_rejected env input w user e Huser Hrej).
    reflexivity.
Qed.

(** C3 (as amended).  When the buyer account resolves and the storage
    layer accepts the insert, [initializePayment] returns
    [{success: true, orderNo}] and appends exactly one row to the table
    selected by the product type, leaving the other tables alone; the row
    carries the returned [orderNo], status 0, no pay time, and the amount and
    product payload of the request.  If moreover no earlier row of that
    table carries the same order number, [getOrderStatus] on the returned
    [orderNo] answers with that row: status 0 and the requested amount. *)
Theorem initializePayment_creates_pending_order
    (env : Collaborators) (input : InitializeInput.t) (w : World) (user : User.row)
    (Huser : resolved_user env (db w) = Some user)
    (Haccepted : insertRejected env = None) :
  exists w' order,
    initializePayment env input w
    = (Return {| InitializeOutput.success := true;
                 InitializeOutput.orderNo := generateOrderNo env |}, w')
    /\ table_of (InitializeInput.productType input) (db w')
       = table_of (InitializeInput.productType input) (db w) ++ [order]
    /\ (forall p, same_table p (InitializeInput.productType input) = false ->
                  table_of p (db w') = table_of p (db w))
    /\ iUser (db w') = iUser (db w)
    /\ order_orderNo order = generateOrderNo env
    /\ order_status order = 0
    /\ order_payTime order = None
    /\ order_amount order = InitializeInput.amount input
    /\ match InitializeInput.productType input with
       | ProductType.vip | ProductType.svip =>
         order_vipLevel order
         = ProductDetails.vipLevel (InitializeInput.productDetails input)
         /\ order_month order
            = ProductDetails.month (InitializeInput.productDetails input)
       | ProductType.goldCoin =>
         order_goldCoin order
         = ProductDetails.goldCoin (InitializeInput.productDetails input)
       | ProductType.translate =>
         order_characterNum order
         = ProductDetails.character (InitializeInput.productDetails input)
       end
    /\ ((forall o, In o (table_of (InitializeInput.productType input) (db w)) ->
                   order_orderNo o <> generateOrderNo env) ->
        getOrderStatus
          {| StatusInput.orderNo := generateOrderNo env;
             StatusInput.productType := InitializeInput.productType input |} w'
        = (Return {| StatusOutput.orderNo := generateOrderNo env;
                     StatusOutput.status := 0;
                     StatusOutput.amount := InitializeInput.amount input;
                     StatusOutput.payTime := None |}, w')).
Proof.
  run_initialize Huser. rewrite Haccepted.
  destruct (InitializeInput.productType input) eqn:Hp; simpl;
    eexists; eexists;
    (split; [reflexivity|]);
    (split; [simpl; rewrite map_app; reflexivity|]);
    (split; [intros p Hdiff; destruct p; try discriminate Hdiff; reflexivity|]);
    (split; [reflexivity|]);
    (split; [reflexivity|]);
    (split; [reflexivity|]);
    (split; [reflexivity|]);
    (split; [reflexivity|]);
    (split; [simpl; repeat split|]);
    intros Hfresh; rewrite getOrderStatus_eq; unfold stored_order; simpl;
    rewrite map_app; simpl;
    (rewrite find_app_fresh;
     [ reflexivity
     | intros o Ho; apply String.eqb_neq; apply Hfresh; exact Ho
     | apply String.eqb_eq; reflexivity ]).
Qed.

(** C10.  Whatever the request, the rows [initializePayment] adds to any
    order table have [recipientUserId] equal to [buyUserId], which is the
    id of the account the caller resolves to, and [payType] 3; and a
    successful call adds such a row to the table of the product type. *)
Theorem initializePayment_rows_for_caller_by_paypal
    (env : Collaborators) (input : InitializeInput.t) (w : World) :
  let created_for_caller (o : Order) :=
    order_recipientUserId o = order_buyUserId o
    /\ order_payType o = 3
    /\ exists user, resolved_user env (db w) = Some user
                    /\ order_buyUserId o = User.id user in
  (forall p, exists created,
      table_of p (db (snd (initializePayment env input w)))
      = table_of p (db w) ++ created
      /\ Forall created_for_caller created)
  /\ (forall out, fst (initializePayment env input w) = Return out ->
      exists o,
        table_of (InitializeInput.productType input)
          (db (snd (initializePayment env input w)))
        = table_of (InitializeInput.productType input) (db w) ++ [o]
        /\ created_for_caller o).
Proof.
  intros created_for_caller. subst created_for_caller.
  destruct (resolved_user env (db w)) as [user|] eqn:Huser.
  2:{ rewrite (initializePayment_unresolved env input w Huser). simpl. split.
      - intros p. exists []. rewrite app_nil_r. split; [reflexivity | constructor].
      - intros out H. discriminate H. }
  destruct (insertRejected env) as [e|] eqn:Hrej.
  { rewrite (initializePayment_rejected env input w user e Huser Hrej). simpl.
    split.
    - intros p. exists []. rewrite app_nil_r. split; [reflexivity | constructor].
    - intros out H. discriminate H. }
  run_initialize Huser. rewrite Hrej.
  split.
  - intros p.
    destruct (InitializeInput.productType input), p; simpl;
      first
        [ exists []; rewrite app_nil_r; split; [reflexivity | constructor]
        | eexists; split;
          [ rewrite map_app; reflexivity
          | constructor; [|constructor];
            simpl; repeat split; exists user; split; reflexivity ] ].
  - intros out _.
    destruct (InitializeInput.productType input); simpl;
      (eexists; split; [rewrite map_app; reflexivity|]);
      simpl; repeat split; exists user; split; reflexivity.
Qed.

(** ** Concrete runs *)

(** C4, at a concrete call: the verifier refuses the payment of Alice's
    pending order. *)
Lemma completePayment_unverified_fails_witness :
  verifyPayPalPayment refusing_env "5O190127TN364715T" (decimal_literal 10 0) = inr not_verified
  /\ VerificationResult.verified not_verified = false
  /\ fst (completePayment refusing_env pay_request pending_shop)
     = Throw (TRPCError PAYMENT_FAILED "Payment verification failed")
  /\ db (snd (completePayment refusing_env pay_request pending_shop)) = db pending_shop
  /\ calls (snd (completePayment refusing_env pay_request pending_shop))
     = [CallVerifyPayPalPayment "5O190127TN364715T" (decimal_literal 10 0)].
Proof.
  split; [reflexivity|]. split; [reflexivity|].
  destruct (completePayment_unverified_fails refusing_env pay_request pending_shop
              not_verified eq_refl eq_refl) as (H1 & H2 & H3 & _).
  split; [exact H1|]. split; [exact H2 | exact H3].
Defined.

(** C1 as stated fails: the designated order is settled (status 1), the
    verifier refuses the payment, and [completePayment] throws
    [PAYMENT_FAILED], not [BAD_REQUEST]. *)
Lemma completePayment_not_pending_counterexample :
  stored_order ProductType.goldCoin "1700000000000042" (db settled_shop)
  = Some (OrderGoldCoin settled_order)
  /\ order_status (OrderGoldCoin settled_order) = 1
  /\ fst (completePayment refusing_env pay_request settled_shop)
     = Throw (TRPCError PAYMENT_FAILED "Payment verification failed")
  /\ (forall message,
        fst (completePayment refusing_env pay_request settled_shop)
        <> Throw (TRPCError BAD_REQUEST message)).
Proof.
  split; [reflexivity|]. split; [reflexivity|]. split; [reflexivity|].
  intros message H. vm_compute in H. discriminate H.
Qed.

(** C1 as amended, at a concrete call: the settled order, a verifier that
    confirms the payment. *)
Lemma completePayment_not_pending_witness :
  stored_order (CompleteInput.productType pay_request)
    (CompleteInput.orderNo pay_request) (db settled_shop)
  = Some (OrderGoldCoin settled_order)
  /\ order_status (OrderGoldCoin settled_order) <> 0
  /\ fst (completePayment paying_env pay_request settled_shop)
     = Throw (TRPCError BAD_REQUEST "订单状态异常")
  /\ calls (snd (completePayment paying_env pay_request settled_shop))
     = [CallVerifyPayPalPayment "5O190127TN364715T" (decimal_literal 10 0)]
  /\ db (snd (completePayment paying_env pay_request settled_shop)) = db settled_shop.
Proof.
  assert (Hstatus : order_status (OrderGoldCoin settled_order) <> 0).
  { simpl. lia. }
  split; [reflexivity|]. split; [exact Hstatus|].
  destruct (completePayment_not_pending paying_env pay_request settled_shop
              (OrderGoldCoin settled_order) eq_refl Hstatus) as (_ & H2 & H3 & H4).
  split; [exact (H4 verified_9_99 eq_refl eq_refl)|]. split; [exact H2 | exact H3].
Defined.

(** C5 as stated fails: no order at all is stored, the verifier refuses
    the payment, and [completePayment] throws [PAYMENT_FAILED], not
    [NOT_FOUND]. *)
Lemma completePayment_unknown_order_counterexample :
  table_of ProductType.goldCoin (db shop) = []
  /\ fst (completePayment refusing_env pay_request shop)
     = Throw (TRPCError PAYMENT_FAILED "Payment verification failed")
  /\ (forall message,
        fst (completePayment refusing_env pay_request shop)
        <> Throw (TRPCError NOT_FOUND message)).
Proof.
  split; [reflexivity|]. split; [reflexivity|].
  intros message H. vm_compute in H. discriminate H.
Qed.

(** C5 as amended, at a concrete call: no order stored, a verifier that
    confirms the payment. *)
Lemma completePayment_unknown_order_witness :
  (forall o, In o (table_of (CompleteInput.productType pay_request) (db shop)) ->
             order_orderNo o <> CompleteInput.orderNo pay_request)
  /\ fst (completePayment paying_env pay_request shop)
     = Throw (TRPCError NOT_FOUND "订单不存在")
  /\ calls (snd (completePayment paying_env pay_request shop))
     = [CallVerifyPayPalPayment "5O190127TN364715T" (decimal_literal 10 0)]
  /\ db (snd (completePayment paying_env pay_request shop)) = db shop.
Proof.
  assert (Hunknown : forall o,
             In o (table_of (CompleteInput.productType pay_request) (db shop)) ->
             order_orderNo o <> CompleteInput.orderNo pay_request).
  { simpl. intros o []. }
  split; [exact Hunknown|].
  destruct (completePayment_unknown_order paying_env pay_request shop Hunknown)
    as (_ & H2 & H3 & H4).
  split; [exact (H4 verified_9_99 eq_refl eq_refl)|]. split; [exact H2 | exact H3].
Defined.

(** C2, the scenario: Alice's gold-coin order for 500 coins at "9.99" is
    pending, the client declares 10, the verifier confirms 9.99; the
    gold-coin crediting procedure is called once, with the order number,
    500, 9.99 and the confirmation id, and the call returns normally. *)
Lemma completePayment_credits_confirmed_amount_witness :
  verifyPayPalPayment paying_env (CompleteInput.paypalOrderId pay_request)
    (CompleteInput.expectedAmount pay_request) = inr verified_9_99
  /\ VerificationResult.verified verified_9_99 = true
  /\ (exists r,
        stored_order ProductType.goldCoin "1700000000000042" (db pending_shop)
        = Some (OrderGoldCoin r)
        /\ RecordGoldCoin.goldCoin r = Some (decimal_literal 500 0)
        /\ RecordGoldCoin.status r = 0)
  /\ calls (snd (completePayment paying_env pay_request pending_shop))
     = [CallVerifyPayPalPayment "5O190127TN364715T" (decimal_literal 10 0);
        CallRechargeGoldCoin
          {| RechargeGoldCoin.orderNo := "1700000000000042";
             RechargeGoldCoin.goldCoin := Some (decimal_literal 500 0);
             RechargeGoldCoin.amount := Some (decimal_literal 999 2);
             RechargeGoldCoin.paypalOrderId := "5O190127TN364715T" |}]
  /\ fst (completePayment paying_env pay_request pending_shop)
     = Return {| CompleteOutput.success := true;
                 CompleteOutput.verificationResult := verified_9_99 |}.
Proof.
  split; [reflexivity|]. split; [reflexivity|].
  split; [eexists; split; [reflexivity | split; reflexivity]|].
  destruct (completePayment_credits_confirmed_amount paying_env pay_request pending_shop
              verified_9_99
              (OrderGoldCoin
                 {| RecordGoldCoin.orderNo := "1700000000000042";
                    RecordGoldCoin.buyUserId := 7;
                    RecordGoldCoin.buyNickname := Some "alice";
                    RecordGoldCoin.recipientUserId := 7;
                    RecordGoldCoin.amount := "9.99";
                    RecordGoldCoin.goldCoin := Some (decimal_literal 500 0);
                    RecordGoldCoin.payType := 3;
                    RecordGoldCoin.status := 0;
                    RecordGoldCoin.payTime := None |})
              eq_refl eq_refl eq_refl eq_refl) as (H1 & H2).
  split; [exact H1 | exact (H2 eq_refl)].
Defined.

(** C3 as stated fails.  Alice's account resolves and the request is
    well formed, yet, in a shop whose gold-coin table already holds an order
    numbered like the one about to be generated: if the storage layer
    accepts the insert, [getOrderStatus] on the returned [orderNo] answers
    with the earlier order (status 1, amount "4.99"), not with the row just
    created; if it rejects the insert, [INTERNAL_SERVER_ERROR] is thrown and
    no row is persisted. *)
Lemma initializePayment_creates_pending_order_counterexample :
  resolved_user paying_env (db settled_shop) = Some alice
  /\ resolved_user rejecting_env (db settled_shop) = Some alice
  /\ generateOrderNo paying_env = "1700000000000042"
  /\ fst (initializePayment paying_env goldCoin_500 settled_shop)
     = Return {| InitializeOutput.success := true;
                 InitializeOutput.orderNo := "1700000000000042" |}
  /\ fst (getOrderStatus status_request
            (snd (initializePayment paying_env goldCoin_500 settled_shop)))
     = Return {| StatusOutput.orderNo := "1700000000000042";
                 StatusOutput.status := 1;
                 StatusOutput.amount := "4.99";
                 StatusOutput.payTime := Some 1700000000500 |}
  /\ fst (initializePayment rejecting_env goldCoin_500 settled_shop)
     = Throw (TRPCError INTERNAL_SERVER_ERROR "创建订单失败")
  /\ db (snd (initializePayment rejecting_env goldCoin_500 settled_shop))
     = db settled_shop.
Proof.
  repeat split.
Qed.

(** C3 as amended, at a concrete call: Alice opens the gold-coin order in
    a shop without orders. *)
Lemma initializePayment_creates_pending_order_witness :
  resolved_user paying_env (db shop) = Some alice
  /\ insertRejected paying_env = None
  /\ (forall o, In o (table_of ProductType.goldCoin (db shop)) ->
                order_orderNo o <> generateOrderNo paying_env)
  /\ exists w' order,
       initializePayment paying_env goldCoin_500 shop
       = (Return {| InitializeOutput.success := true;
                    InitializeOutput.orderNo := "1700000000000042" |}, w')
       /\ table_of ProductType.goldCoin (db w') = [order]
       /\ order_status order = 0
       /\ order_amount order = "9.99"
       /\ order_goldCoin order = Some (decimal_literal 500 0)
       /\ getOrderStatus status_request w'
          = (Return {| StatusOutput.orderNo := "1700000000000042";
                       StatusOutput.status := 0;
                       StatusOutput.amount := "9.99";
                       StatusOutput.payTime := None |}, w').
Proof.
  assert (Hfresh : forall o, In o (table_of ProductType.goldCoin (db shop)) ->
                             order_orderNo o <> generateOrderNo paying_env).
  { simpl. intros o []. }
  split; [reflexivity|]. split; [reflexivity|]. split; [exact Hfresh|].
  destruct (initializePayment_creates_pending_order paying_env goldCoin_500 shop alice
              eq_refl eq_refl)
    as (w' & order & H1 & H2 & _ & _ & _ & H6 & _ & H8 & H9 & H10).
  exists w', order.
  split; [exact H1|]. split; [exact H2|]. split; [exact H6|].
  split; [exact H8|]. split; [exact H9|]. exact (H10 Hfresh).
Defined.

(** C6, at concrete calls: a shop without accounts, and a storage layer
    that rejects the insert. *)
Lemma initializePayment_failures_witness :
  resolved_user paying_env (db empty_shop) = None
  /\ initializePayment paying_env goldCoin_500 empty_shop
     = (Throw (TRPCError NOT_FOUND "用户不存在"), empty_shop)
  /\ resolved_user rejecting_env (db shop) = Some alice
  /\ insertRejected rejecting_env = Some (OtherError "ER_DUP_ENTRY")
  /\ initializePayment rejecting_env goldCoin_500 shop
     = (Throw (TRPCError INTERNAL_SERVER_ERROR "创建订单失败"),
        {| db := shop_db; calls := [];
           console := [("创建订单失败:", OtherError "ER_DUP_ENTRY")] |}).
Proof.
  split; [reflexivity|].
  split; [exact (proj1 (initializePayment_failures paying_env goldCoin_500 empty_shop)
                   eq_refl)|].
  split; [reflexivity|]. split; [reflexivity|].
  exact (proj2 (initializePayment_failures rejecting_env goldCoin_500 shop)
           alice (OtherError "ER_DUP_ENTRY") eq_refl eq_refl).
Defined.



(** C8, at concrete calls: the status of Alice's pending order, and of an
    order number nobody has. *)
Lemma getOrderStatus_pure_read_witness :
  getOrderStatus status_request pending_shop
  = (Return {| StatusOutput.orderNo := "1700000000000042";
               StatusOutput.status := 0;
               StatusOutput.amount := "9.99";
               StatusOutput.payTime := None |}, pending_shop)
  /\ (forall o, In o (table_of (StatusInput.productType status_request) (db shop)) ->
                order_orderNo o <> StatusInput.orderNo status_request)
  /\ getOrderStatus status_request shop
     = (Throw (TRPCError NOT_FOUND "订单不存在"), shop).
Proof.
  assert (Hnone : forall o,
             In o (table_of (StatusInput.productType status_request) (db shop)) ->
             order_orderNo o <> StatusInput.orderNo status_request).
  { simpl. intros o []. }
  split; [reflexivity|]. split; [exact Hnone|].
  destruct (getOrderStatus_pure_read status_request shop) as (H1 & H2 & _).
  rewrite (surjective_pairing (getOrderStatus status_request shop)).
  rewrite H1, (H2 Hnone). reflexivity.
Defined.

(** C9, at concrete calls under ['svip']: the order is stored in, read
    from and credited out of [iRecordVip]. *)
Lemma vip_svip_indistinguishable_witness :
  (ProductType.svip = ProductType.vip \/ ProductType.svip = ProductType.svip)
  /\ iRecordVip (db (snd (initializePayment paying_env
                            (vip_request ProductType.svip) shop)))
     = [vip_order]
  /\ iRecordGoldCoin (db (snd (initializePayment paying_env
                                 (vip_request ProductType.svip) shop)))
     = []
  /\ getOrderStatus
       {| StatusInput.orderNo := "1700000000000042";
          StatusInput.productType := ProductType.svip |} vip_shop
     = (Return {| StatusOutput.orderNo := "1700000000000042";
                  StatusOutput.status := 0;
                  StatusOutput.amount := "19.99";
                  StatusOutput.payTime := None |}, vip_shop)
  /\ calls (snd (completePayment paying_env
                   {| CompleteInput.orderNo := "1700000000000042";
                      CompleteInput.paypalOrderId := "5O190127TN364715T";
                      CompleteInput.productType := ProductType.svip;
                      CompleteInput.expectedAmount := decimal_literal 1999 2 |}
                   vip_shop))
     = [CallVerifyPayPalPayment "5O190127TN364715T" (decimal_literal 1999 2);
        CallRechargeVip
          {| RechargeVip.orderNo := "1700000000000042";
             RechargeVip.vipLevel := Some (decimal_literal 2 0);
             RechargeVip.month := Some (decimal_literal 12 0);
             RechargeVip.amount := Some (decimal_literal 999 2);
             RechargeVip.paypalOrderId := "5O190127TN364715T" |}].
Proof.
  assert (Hp : ProductType.svip = ProductType.vip
               \/ ProductType.svip = ProductType.svip).
  { right. reflexivity. }
  split; [exact Hp|].
  destruct (vip_svip_indistinguishable paying_env shop ProductType.svip Hp)
    as (Hinsert & Hothers & _).
  destruct (vip_svip_indistinguishable paying_env vip_shop ProductType.svip Hp)
    as (_ & _ & Hstatus & Hcomplete & _).
  split; [exact (Hinsert "19.99" _ alice eq_refl eq_refl)|].
  split; [exact (proj1 (Hothers "19.99" _))|].
  split; [exact (Hstatus "1700000000000042")|].
  exact (Hcomplete "1700000000000042" "5O190127TN364715T" (decimal_literal 1999 2)
           verified_9_99 eq_refl eq_refl).
Defined.

(** C10, at a concrete call: the row created for Alice. *)
Lemma initializePayment_rows_for_caller_by_paypal_witness :
  exists o,
    table_of ProductType.goldCoin (db pending_shop) = [o]
    /\ order_recipientUserId o = 7
    /\ order_buyUserId o = 7
    /\ order_payType o = 3.
Proof.
  destruct (proj2 (initializePayment_rows_for_caller_by_paypal
                     paying_env goldCoin_500 shop)
              {| InitializeOutput.success := true;
                 InitializeOutput.orderNo := "1700000000000042" |} eq_refl)
    as (o & Htable & Hrec & Hpay & user & Huser & Hbuy).
  exists o. split; [exact Htable|].
  injection Huser as <-.
  split; [rewrite Hrec; exact Hbuy|]. split; [exact Hbuy | exact Hpay].
Defined.

(** * Further properties of the router *)

(** ** [generateOrderNo] *)

Lemma toString_injective (a b : Z) : toString a = toString b -> a = b.
Proof.
  unfold toString. intros H.
  assert (Hparse : forall z,
             NilZero.int_of_string (NilZero.string_of_int (Z.to_int z))
             = Some (Z.to_int z)).
  { intros z. apply NilZero.isi; destruct z; simpl; try discriminate;
      intros E; injection E as E; exact (DecimalPos.Unsigned.to_uint_nonnil _ E). }
  apply DecimalZ.to_int_inj.
  assert (E : Some (Z.to_int a) = Some (Z.to_int b)).
  { rewrite <- (Hparse a), <- (Hparse b), H. reflexivity. }
  injection E as E. exact E.
Qed.

Lemma string_length_append (s t : string) :
  String.length (s ++ t)%string = (String.length s + String.length t)%nat.
Proof. induction s as [|c s IH]; simpl; [reflexivity | rewrite IH; reflexivity]. Qed.

(** Two concatenations with tails of one length agree part by part. *)
Lemma append_same_tail_length (s1 s2 t1 t2 : string) :
  (s1 ++ t1)%string = (s2 ++ t2)%string ->
  String.length t1 = String.length t2 ->
  s1 = s2 /\ t1 = t2.
Proof.
  revert s2. induction s1 as [|c s1 IH]; intros [|c2 s2] H Hlen; simpl in H.
  - split; [reflexivity | exact H].
  - exfalso. apply (f_equal String.length) in H. simpl in H.
    rewrite string_length_append in H. lia.
  - exfalso. apply (f_equal String.length) in H. simpl in H.
    rewrite string_length_append in H. lia.
  - injection H as Hc H. destruct (IH s2 H Hlen) as [-> ->]. subst c2.
    split; reflexivity.
Qed.

(** A property checked on each of 0, ..., 999 holds of every draw. *)
Lemma below_1000 (P : Z -> bool) :
  forallb (fun n => P (Z.of_nat n)) (seq 0 1000) = true ->
  forall r, 0 <= r < 1000 -> P r = true.
Proof.
  intros H r Hr. rewrite forallb_forall in H.
  rewrite <- (Z2Nat.id r) by lia. apply H. apply in_seq. lia.
Qed.

Lemma padStart_draw (r : Z) :
  0 <= r < 1000 ->
  padStart 3 "0"%char (toString r)
  = String (digit_char (r / 100))
      (String (digit_char (r / 10 mod 10))
         (String (digit_char (r mod 10)) EmptyString)).
Proof.
  intros Hr.
  apply String.eqb_eq.
  apply (below_1000
           (fun r => String.eqb (padStart 3 "0"%char (toString r))
                       (String (digit_char (r / 100))
                          (String (digit_char (r / 10 mod 10))
                             (String (digit_char (r mod 10)) EmptyString)))));
    [vm_compute; reflexivity | exact Hr].
Qed.

Lemma digit_char_injective (a b : Z) :
  0 <= a < 10 -> 0 <= b < 10 -> digit_char a = digit_char b -> a = b.
Proof.
  unfold digit_char. intros Ha Hb H.
  apply (f_equal nat_of_ascii) in H.
  rewrite !nat_ascii_embedding in H by lia. lia.
Qed.

(** X1.  When the random part is a draw [0 <= r < 1000], as
    [Math.floor(Math.random() * 1000)] is, the order number is the decimal
    rendering of the clock followed by exactly three decimal digits:
    the hundreds, tens and units of the draw, zeros included. *)
Theorem generateOrderNo_clock_then_three_digits (env : Collaborators)
    (Hdraw : 0 <= Math_random_times_1000_floor env < 1000) :
  let r := Math_random_times_1000_floor env in
  generateOrderNo env
  = (toString (Date_now env)
     ++ String (digit_char (r / 100))
          (String (digit_char (r / 10 mod 10))
             (String (digit_char (r mod 10)) EmptyString)))%string
  /\ String.length (generateOrderNo env)
     = (String.length (toString (Date_now env)) + 3)%nat.
Proof.
  intros r. subst r. unfold generateOrderNo.
  rewrite (padStart_draw _ Hdraw). split; [reflexivity|].
  rewrite string_length_append. reflexivity.
Qed.

(** X2.  Order numbers repeat only when both the clock reading and the
    random draw repeat: for draws in [0, 1000), two runs of
    [generateOrderNo] that return the same string read the same
    [Date.now()] and drew the same number. *)
Theorem generateOrderNo_injective (env1 env2 : Collaborators)
    (Hdraw1 : 0 <= Math_random_times_1000_floor env1 < 1000)
    (Hdraw2 : 0 <= Math_random_times_1000_floor env2 < 1000)
    (Hsame : generateOrderNo env1 = generateOrderNo env2) :
  Date_now env1 = Date_now env2
  /\ Math_random_times_1000_floor env1 = Math_random_times_1000_floor env2.
Proof.
  unfold generateOrderNo in Hsame.
  rewrite (padStart_draw _ Hdraw1), (padStart_draw _ Hdraw2) in Hsame.
  apply append_same_tail_length in Hsame; [|reflexivity].
  destruct Hsame as [Hclock Htail]. split; [apply toString_injective; exact Hclock|].
  injection Htail as H100 H10 H1.
  set (r1 := Math_random_times_1000_floor env1) in *.
  set (r2 := Math_random_times_1000_floor env2) in *.
  apply digit_char_injective in H100;
    [| split; [apply Z.div_pos; lia | apply Z.div_lt_upper_bound; lia]
     | split; [apply Z.div_pos; lia | apply Z.div_lt_upper_bound; lia]].
  apply digit_char_injective in H10;
    [| apply Z.mod_pos_bound; lia | apply Z.mod_pos_bound; lia].
  apply digit_char_injective in H1;
    [| apply Z.mod_pos_bound; lia | apply Z.mod_pos_bound; lia].
  rewrite (Z.div_mod r1 10), (Z.div_mod r2 10) by lia.
  rewrite (Z.div_mod (r1 / 10) 10), (Z.div_mod (r2 / 10) 10) by lia.
  rewrite !Z.div_div by lia. change (10 * 10) with 100.
  rewrite H100, H10, H1. reflexivity.
Qed.

(** ** [initializePayment] beyond the order row *)

Lemma find_app_some {A} (f : A -> bool) (l l' : list A) (a : A) :
  find f l = Some a -> find f (l ++ l') = Some a.
Proof.
  induction l as [|b l IH]; simpl; [discriminate|].
  destruct (f b); [intros H; exact H | exact IH].
Qed.

(** An accepted [initializePayment], with everything it leaves behind. *)
Lemma initializePayment_accepted
    (env : Collaborators) (input : InitializeInput.t) (w : World) (user : User.row)
    (Huser : resolved_user env (db w) = Some user)
    (Haccepted : insertRejected env = None) :
  exists d' order,
    initializePayment env input w
    = (Return {| InitializeOutput.success := true;
                 InitializeOutput.orderNo := generateOrderNo env |}, with_db w d')
    /\ table_of (InitializeInput.productType input) d'
       = table_of (InitializeInput.productType input) (db w) ++ [order]
    /\ (forall p, same_table p (InitializeInput.productType input) = false ->
                  table_of p d' = table_of p (db w))
    /\ iUser d' = iUser (db w)
    /\ order_orderNo order = generateOrderNo env
    /\ order_status order = 0
    /\ match InitializeInput.productType input with
       | ProductType.vip | ProductType.svip =>
         order_vipLevel order
         = ProductDetails.vipLevel (InitializeInput.productDetails input)
         /\ order_month order
            = ProductDetails.month (InitializeInput.productDetails input)
       | ProductType.goldCoin =>
         order_goldCoin order
         = ProductDetails.goldCoin (InitializeInput.productDetails input)
       | ProductType.translate =>
         order_characterNum order
         = ProductDetails.character (InitializeInput.productDetails input)
       end.
Proof.
  run_initialize Huser. rewrite Haccepted.
  destruct (InitializeInput.productType input); simpl;
    eexists; eexists;
    (split; [reflexivity|]);
    (split; [simpl; rewrite map_app; reflexivity|]);
    (split; [intros p Hdiff; destruct p; try discriminate Hdiff; reflexivity|]);
    (split; [reflexivity|]);
    (split; [reflexivity|]);
    (split; [reflexivity|]);
    simpl; repeat split.
Qed.

(** X3.  [initializePayment] only creates the order record: in every
    outcome it has made no call to the payment provider or to a crediting
    procedure and has left the user table as it was, and it writes to the
    console only when it fails with [INTERNAL_SERVER_ERROR]. *)
Theorem initializePayment_only_records
    (env : Collaborators) (input : InitializeInput.t) (w : World) :
  calls (snd (initializePayment env input w)) = calls w
  /\ iUser (db (snd (initializePayment env input w))) = iUser (db w)
  /\ (console (snd (initializePayment env input w)) = console w
      \/ exists e,
           insertRejected env = Some e
           /\ fst (initializePayment env input w)
              = Throw (TRPCError INTERNAL_SERVER_ERROR "创建订单失败")
           /\ console (snd (initializePayment env input w))
              = console w ++ [("创建订单失败:", e)]).
Proof.
  destruct (resolved_user env (db w)) as [user|] eqn:Huser.
  2:{ rewrite (initializePayment_unresolved env input w Huser). simpl.
      split; [reflexivity|]. split; [reflexivity|]. left. reflexivity. }
  destruct (insertRejected env) as [e|] eqn:Hrej.
  - rewrite (initializePayment_rejected env input w user e Huser Hrej). simpl.
    split; [reflexivity|]. split; [reflexivity|]. right. exists e.
    split; [reflexivity|]. split; reflexivity.
  - destruct (initializePayment_accepted env input w user Huser Hrej)
      as (d' & order & -> & _ & _ & Husers & _). simpl.
    split; [reflexivity|]. split; [exact Husers|]. left. reflexivity.
Qed.

(** X4.  [initializePayment] reads of [productDetails] only the fields of
    the request's product type ([vipLevel] and [month], or [goldCoin], or
    [character]); [giveGoldCoin] and the fields of the other product types
    change nothing: two requests that agree on the amount, the product type
    and those fields have the same outcome and leave the same world. *)
Theorem initializePayment_reads_own_details
    (env : Collaborators) (a b : InitializeInput.t) (w : World)
    (Hsame : same_order_request a b) :
  initializePayment env a w = initializePayment env b w.
Proof.
  destruct Hsame as (Hamount & Htype & Hdetails).
  unfold initializePayment, insert. unfold_monad.
  destruct (find _ (iUser (db w))) as [user|]; [|reflexivity].
  rewrite <- Htype, <- Hamount.
  destruct (InitializeInput.productType a); simpl in Hdetails.
  1,2: destruct Hdetails as [H1 H2]; rewrite <- H1, <- H2; reflexivity.
  all: rewrite <- Hdetails; reflexivity.
Qed.

(** X5.  Creating an order never disturbs an existing one: whatever
    request [initializePayment] serves and however it ends, an order number
    that designated a stored order before designates the same order
    afterwards, so [getOrderStatus] answers for it as before. *)
Theorem initializePayment_preserves_existing_orders
    (env : Collaborators) (input : InitializeInput.t) (w : World)
    (query : StatusInput.t) (order : Order)
    (Hstored : stored_order (StatusInput.productType query)
                 (StatusInput.orderNo query) (db w) = Some order) :
  stored_order (StatusInput.productType query) (StatusInput.orderNo query)
    (db (snd (initializePayment env input w))) = Some order
  /\ fst (getOrderStatus query (snd (initializePayment env input w)))
     = fst (getOrderStatus query w).
Proof.
  assert (Hkept : stored_order (StatusInput.productType query)
                    (StatusInput.orderNo query)
                    (db (snd (initializePayment env input w))) = Some order).
  { destruct (resolved_user env (db w)) as [user|] eqn:Huser.
    2:{ rewrite (initializePayment_unresolved env input w Huser). exact Hstored. }
    destruct (insertRejected env) as [e|] eqn:Hrej.
    { rewrite (initializePayment_rejected env input w user e Huser Hrej).
      exact Hstored. }
    destruct (initializePayment_accepted env input w user Huser Hrej)
      as (d' & created & -> & Htable & Hothers & _). simpl.
    unfold stored_order in *.
    destruct (same_table (StatusInput.productType query)
                (InitializeInput.productType input)) eqn:Hsame.
    - assert (Heq : table_of (StatusInput.productType query) d'
                    = table_of (StatusInput.productType query) (db w) ++ [created]).
      { destruct (StatusInput.productType query),
                 (InitializeInput.productType input);
          try discriminate Hsame; exact Htable. }
      rewrite Heq. apply find_app_some. exact Hstored.
    - rewrite (Hothers _ Hsame). exact Hstored. }
  split; [exact Hkept|].
  rewrite !getOrderStatus_eq. simpl. rewrite Hkept, Hstored. reflexivity.
Qed.

(** ** [completePayment] over several calls *)

(** The whole of [completePayment] as one equation. *)
Lemma completePayment_eq (env : Collaborators) (input : CompleteInput.t) (w : World) :
  completePayment env input w =
  let label := "支付完成处理失败:" in
  let w1 := record_call w (verify_call input) in
  match verifyPayPalPayment env
          (CompleteInput.paypalOrderId input) (CompleteInput.expectedAmount input) with
  | inl e => (Throw e, logged w1 label e)
  | inr vr =>
    if negb (VerificationResult.verified vr) then
      let e := TRPCError PAYMENT_FAILED
                 (or_string (VerificationResult.error vr)
                            "Payment verification failed") in
      (Throw e, logged w1 label e)
    else
      match stored_order (CompleteInput.productType input)
                         (CompleteInput.orderNo input) (db w) with
      | None =>
        (Throw (TRPCError NOT_FOUND "订单不存在"),
         logged w1 label (TRPCError NOT_FOUND "订单不存在"))
      | Some order =>
        if negb (order_status order =? 0) then
          (Throw (TRPCError BAD_REQUEST "订单状态异常"),
           logged w1 label (TRPCError BAD_REQUEST "订单状态异常"))
        else
          let c := crediting_call input order vr in
          let w2 := record_call (with_db w1 (fst (crediting_outcome env c (db w)))) c in
          match snd (crediting_outcome env c (db w)) with
          | Some e => (Throw e, logged w2 label e)
          | None =>
            (Return {| CompleteOutput.success := true;
                       CompleteOutput.verificationResult := vr |}, w2)
          end
      end
  end.
Proof.
  rewrite completePayment_catch, completePayment_try_eq. cbv zeta.
  destruct (verifyPayPalPayment env _ _) as [e|vr]; [reflexivity|].
  destruct (negb (VerificationResult.verified vr)); [reflexivity|].
  destruct (stored_order _ _ _) as [order|]; [|reflexivity].
  destruct (negb (order_status order =? 0)); [reflexivity|].
  destruct (snd (crediting_outcome env _ _)); reflexivity.
Qed.

(** A run of [completePayment] that reaches the crediting step. *)
Lemma completePayment_reached
    (env : Collaborators) (input : CompleteInput.t) (w : World)
    (vr : VerificationResult.t) (order : Order)
    (Hverify : verifyPayPalPayment env (CompleteInput.paypalOrderId input)
                 (CompleteInput.expectedAmount input) = inr vr)
    (Hverified : VerificationResult.verified vr = true)
    (Horder : stored_order (CompleteInput.productType input)
                (CompleteInput.orderNo input) (db w) = Some order)
    (Hpending : order_status order = 0) :
  let outcome := crediting_outcome env (crediting_call input order vr) (db w) in
  calls (snd (completePayment env input w))
  = calls w ++ [verify_call input; crediting_call input order vr]
  /\ db (snd (completePayment env input w)) = fst outcome
  /\ fst (completePayment env input w)
     = match snd outcome with
       | Some e => Throw e
       | None => Return {| CompleteOutput.success := true;
                           CompleteOutput.verificationResult := vr |}
       end.
Proof.
  apply Z.eqb_eq in Hpending. cbv zeta.
  rewrite completePayment_eq. cbv zeta.
  rewrite Hverify, Hverified, Horder, Hpending. simpl.
  destruct (snd (crediting_outcome env _ _)); simpl;
    rewrite <- app_assoc; repeat split.
Qed.

(** X6.  From request to crediting.  When [initializePayment] has stored
    an order (account resolved, insert accepted) under a number no earlier
    row of the table carries, a later [completePayment] for the returned
    [orderNo] and the same product type, by whatever principal and with a
    verifier answering [verified: true], makes exactly one crediting call,
    and that call carries what the first request asked for: the payload
    fields of [productDetails] as they were sent, absent ones included. *)
Theorem order_lifecycle_credits_requested_payload
    (env env' : Collaborators) (input : InitializeInput.t) (w : World)
    (user : User.row) (paypalOrderId : string) (expectedAmount : number)
    (vr : VerificationResult.t)
    (Huser : resolved_user env (db w) = Some user)
    (Haccepted : insertRejected env = None)
    (Hfresh : forall o, In o (table_of (InitializeInput.productType input) (db w)) ->
                        order_orderNo o <> generateOrderNo env)
    (Hverify : verifyPayPalPayment env' paypalOrderId expectedAmount = inr vr)
    (Hverified : VerificationResult.verified vr = true) :
  calls (snd (completePayment env'
                (completion_of env input paypalOrderId expectedAmount)
                (snd (initializePayment env input w))))
  = calls w ++
    [CallVerifyPayPalPayment paypalOrderId expectedAmount;
     match InitializeInput.productType input with
     | ProductType.vip | ProductType.svip =>
       CallRechargeVip
         {| RechargeVip.orderNo := generateOrderNo env;
            RechargeVip.vipLevel :=
              ProductDetails.vipLevel (InitializeInput.productDetails input);
            RechargeVip.month :=
              ProductDetails.month (InitializeInput.productDetails input);
            RechargeVip.amount := VerificationResult.amount vr;
            RechargeVip.paypalOrderId := paypalOrderId |}
     | ProductType.goldCoin =>
       CallRechargeGoldCoin
         {| RechargeGoldCoin.orderNo := generateOrderNo env;
            RechargeGoldCoin.goldCoin :=
              ProductDetails.goldCoin (InitializeInput.productDetails input);
            RechargeGoldCoin.amount := VerificationResult.amount vr;
            RechargeGoldCoin.paypalOrderId := paypalOrderId |}
     | ProductType.translate =>
       CallRechargeTranslate
         {| RechargeTranslate.orderNo := generateOrderNo env;
            RechargeTranslate.character :=
              ProductDetails.character (InitializeInput.productDetails input);
            RechargeTranslate.amount := VerificationResult.amount vr;
            RechargeTranslate.paypalOrderId := paypalOrderId |}
     end].
Proof.
  destruct (initializePayment_accepted env input w user Huser Haccepted)
    as (d' & order & -> & Htable & _ & _ & Hno & Hstatus & Hpayload).
  simpl snd.
  assert (Hstored : stored_order (InitializeInput.productType input)
                      (generateOrderNo env) d' = Some order).
  { unfold stored_order. rewrite Htable. apply find_app_fresh.
    - intros o Ho. apply String.eqb_neq. apply Hfresh. exact Ho.
    - apply String.eqb_eq. exact Hno. }
  destruct (completePayment_reached env'
              (completion_of env input paypalOrderId expectedAmount)
              (with_db w d') vr order Hverify Hverified Hstored Hstatus)
    as (Hcalls & _).
  rewrite Hcalls. simpl. unfold verify_call, crediting_call. simpl.
  destruct (InitializeInput.productType input).
  1,2: destruct Hpayload as [-> ->]; reflexivity.
  all: rewrite Hpayload; reflexivity.
Qed.


(** X8.  Once the crediting procedure has moved the order out of status 0,
    a second [completePayment] for it is refused: with the verifier still
    answering [verified: true] it throws [BAD_REQUEST], calls the verifier
    again but no crediting procedure, and leaves the database alone. *)
Theorem completePayment_retry_refused_after_settlement
    (env : Collaborators) (input : CompleteInput.t) (w : World)
    (vr : VerificationResult.t) (order order' : Order)
    (Hverify : verifyPayPalPayment env (CompleteInput.paypalOrderId input)
                 (CompleteInput.expectedAmount input) = inr vr)
    (Hverified : VerificationResult.verified vr = true)
    (Horder : stored_order (CompleteInput.productType input)
                (CompleteInput.orderNo input) (db w) = Some order)
    (Hpending : order_status order = 0)
    (Hafter : stored_order (CompleteInput.productType input)
                (CompleteInput.orderNo input)
                (db (snd (completePayment env input w))) = Some order')
    (Hsettled : order_status order' <> 0) :
  fst (completePayment env input (snd (completePayment env input w)))
  = Throw (TRPCError BAD_REQUEST "订单状态异常")
  /\ calls (snd (completePayment env input (snd (completePayment env input w))))
     = calls w ++
       [verify_call input; crediting_call input order vr; verify_call input]
  /\ db (snd (completePayment env input (snd (completePayment env input w))))
     = db (snd (completePayment env input w)).
Proof.
  destruct (completePayment_reached env input w vr order
              Hverify Hverified Horder Hpending) as (Hcalls & _).
  apply Z.eqb_neq in Hsettled.
  rewrite (completePayment_eq env input (snd (completePayment env input w))).
  cbv zeta. rewrite Hverify, Hverified, Hafter, Hsettled. simpl.
  split; [reflexivity|]. split; [|reflexivity].
  rewrite Hcalls, <- app_assoc. reflexivity.
Qed.

(** X9.  [completePayment] changes the database only through the crediting
    procedure, and keeps what that procedure wrote even when it throws:
    either no crediting call was made and the database is what it was, or
    the crediting step was reached and the database is the one the
    procedure left, whether it returned or threw.  A call that returns
    normally writes nothing to the console. *)
Theorem completePayment_database_effect
    (env : Collaborators) (input : CompleteInput.t) (w : World) :
  ((db (snd (completePayment env input w)) = db w
    /\ calls (snd (completePayment env input w)) = calls w ++ [verify_call input]
    /\ exists e, fst (completePayment env input w) = Throw e)
   \/ exists vr order,
        verifyPayPalPayment env (CompleteInput.paypalOrderId input)
          (CompleteInput.expectedAmount input) = inr vr
        /\ VerificationResult.verified vr = true
        /\ stored_order (CompleteInput.productType input)
             (CompleteInput.orderNo input) (db w) = Some order
        /\ order_status order = 0
        /\ db (snd (completePayment env input w))
           = fst (crediting_outcome env (crediting_call input order vr) (db w))
        /\ (forall e,
              snd (crediting_outcome env (crediting_call input order vr) (db w))
              = Some e ->
              fst (completePayment env input w) = Throw e))
  /\ (forall out, fst (completePayment env input w) = Return out ->
                  console (snd (completePayment env input w)) = console w).
Proof.
  rewrite completePayment_eq. cbv zeta.
  destruct (verifyPayPalPayment env _ _) as [e|vr] eqn:Hv.
  { simpl. split; [left; repeat split; eexists; reflexivity | intros out H; discriminate H]. }
  destruct (VerificationResult.verified vr) eqn:Hok; simpl.
  2:{ split; [left; repeat split; eexists; reflexivity | intros out H; discriminate H]. }
  destruct (stored_order _ _ _) as [order|] eqn:Ho.
  2:{ simpl. split; [left; repeat split; eexists; reflexivity
                    | intros out H; discriminate H]. }
  destruct (order_status order =? 0) eqn:Hs; simpl.
  2:{ split; [left; repeat split; eexists; reflexivity | intros out H; discriminate H]. }
  apply Z.eqb_eq in Hs.
  destruct (snd (crediting_outcome env _ _)) as [e|] eqn:Hout; simpl.
  - split; [|intros out H; discriminate H].
    right. exists vr, order.
    split; [reflexivity|]. split; [exact Hok|]. split; [reflexivity|].
    split; [exact Hs|]. split; [reflexivity|].
    intros e' He'. rewrite Hout in He'. injection He' as <-. reflexivity.
  - split; [|intros out _; reflexivity].
    right. exists vr, order.
    split; [reflexivity|]. split; [exact Hok|]. split; [reflexivity|].
    split; [exact Hs|]. split; [reflexivity|].
    intros e' He'. rewrite Hout in He'. discriminate He'.
Qed.

(** X10.  The message of [PAYMENT_FAILED] is never empty: it is the
    verifier's [error] text when that is a non-empty string, and
    "Payment verification failed" when the verifier gave none or gave the
    empty string. *)
Theorem completePayment_failure_message
    (env : Collaborators) (input : CompleteInput.t) (w : World)
    (vr : VerificationResult.t)
    (Hverify : verifyPayPalPayment env (CompleteInput.paypalOrderId input)
                 (CompleteInput.expectedAmount input) = inr vr)
    (Hrejected : VerificationResult.verified vr = false) :
  exists message,
    fst (completePayment env input w) = Throw (TRPCError PAYMENT_FAILED message)
    /\ message <> EmptyString
    /\ (forall c s, VerificationResult.error vr = Some (String c s) ->
                    message = String c s)
    /\ (VerificationResult.error vr = None
        \/ VerificationResult.error vr = Some EmptyString ->
        message = "Payment verification failed").
Proof.
  exists (or_string (VerificationResult.error vr) "Payment verification failed").
  rewrite completePayment_eq. cbv zeta. rewrite Hverify, Hrejected. simpl.
  split; [reflexivity|].
  destruct (VerificationResult.error vr) as [[|c s]|]; simpl.
  - split; [discriminate|]. split; [intros c s H; discriminate H | intros _; reflexivity].
  - split; [discriminate|]. split.
    + intros c' s' H. injection H as <- <-. reflexivity.
    + intros [H|H]; discriminate H.
  - split; [discriminate|]. split; [intros c s H; discriminate H | intros _; reflexivity].
Qed.

(** * Properties of the friend-request panel *)

Lemma FriendRequestList_isProcessing_iff (st : FriendRequestList.Panel.t) (id : Z) :
  FriendRequestList.isProcessing st id = true
  <-> FriendRequestList.Panel.processingId st = Some id.
Proof.
  unfold FriendRequestList.isProcessing.
  destruct (FriendRequestList.Panel.processingId st) as [p|].
  - rewrite Z.eqb_eq. split; [intros ->; reflexivity | intros H; injection H as H; exact H].
  - split; discriminate.
Qed.

Lemma FriendRequestList_rows_of_render
    (query : FriendRequestList.Query.t) (m : bool) (st : FriendRequestList.Panel.t) :
  FriendRequestList.rows_of (FriendRequestList.render query m st) = []
  \/ exists d,
       FriendRequestList.Query.data query = Some d
       /\ FriendRequestList.rows_of (FriendRequestList.render query m st)
          = map (FriendRequestList.renderRow st) (FriendRequestList.Data.requests d).
Proof.
  unfold FriendRequestList.render.
  destruct (FriendRequestList.Query.isLoading query); [left; reflexivity|].
  destruct (FriendRequestList.Query.error query); [left; reflexivity|].
  destruct (FriendRequestList.Query.data query) as [d|]; [|left; reflexivity].
  simpl. destruct (Nat.eqb _ 0); [left; reflexivity|].
  right. exists d. split; reflexivity.
Qed.

Lemma FriendRequestList_busy_rows
    (st : FriendRequestList.Panel.t) (l : list FriendRequestList.FriendRequest.t) :
  NoDup (map FriendRequestList.FriendRequest.id l) ->
  (List.length (filter FriendRequestList.busy
                  (map (FriendRequestList.renderRow st) l)) <= 1)%nat.
Proof.
  induction l as [|r l IH]; simpl; intros Hnodup; [lia|].
  inversion Hnodup as [|x xs Hnotin Hrest]; subst.
  unfold FriendRequestList.busy at 1. simpl.
  destruct (FriendRequestList.isProcessing st (FriendRequestList.FriendRequest.id r))
    eqn:Hr.
  - simpl.
    assert (Hnone : filter FriendRequestList.busy
                      (map (FriendRequestList.renderRow st) l) = []).
    { clear IH Hrest Hnodup. induction l as [|r' l IH]; simpl; [reflexivity|].
      unfold FriendRequestList.busy at 1. simpl.
      destruct (FriendRequestList.isProcessing st
                  (FriendRequestList.FriendRequest.id r')) eqn:Hr'.
      - exfalso. apply Hnotin. left.
        apply FriendRequestList_isProcessing_iff in Hr, Hr'.
        rewrite Hr in Hr'. injection Hr' as Hr'. symmetry. exact Hr'.
      - apply IH. intros Hin. apply Hnotin. right. exact Hin. }
    rewrite Hnone. simpl. lia.
  - apply IH. exact Hrest.
Qed.

(** X11.  On every screen the panel can show, the two buttons of a row
    are disabled together, and exactly when [processingId] is the id of the
    row's request; a press on either of them then changes nothing.  When
    the requests displayed have pairwise distinct ids, at most one row is in
    that state. *)
Theorem FriendRequestList_one_busy_row
    (query : FriendRequestList.Query.t) (mutationIsLoading : bool)
    (st : FriendRequestList.Panel.t) :
  let rows :=
    FriendRequestList.rows_of (FriendRequestList.render query mutationIsLoading st) in
  (forall r, In r rows ->
     FriendRequestList.Button.disabled (FriendRequestList.Row.reject r)
     = FriendRequestList.Button.disabled (FriendRequestList.Row.accept r)
     /\ (FriendRequestList.Button.disabled (FriendRequestList.Row.accept r) = true
         <-> FriendRequestList.Panel.processingId st
             = Some (FriendRequestList.Row.key r))
     /\ (FriendRequestList.Button.disabled (FriendRequestList.Row.accept r) = true ->
         FriendRequestList.press (FriendRequestList.Row.accept r) st = st
         /\ FriendRequestList.press (FriendRequestList.Row.reject r) st = st))
  /\ (forall d,
        FriendRequestList.Query.data query = Some d ->
        NoDup (map FriendRequestList.FriendRequest.id
                   (FriendRequestList.Data.requests d)) ->
        (FriendRequestList.count FriendRequestList.busy rows <= 1)%nat).
Proof.
  intros rows. subst rows.
  destruct (FriendRequestList_rows_of_render query mutationIsLoading st)
    as [Hnone | (d & Hd & Hrows)].
  - rewrite Hnone. split; [intros r []|].
    intros d _ _. unfold FriendRequestList.count. simpl. lia.
  - rewrite Hrows. split.
    + intros r Hr. apply in_map_iff in Hr. destruct Hr as (request & <- & _). simpl.
      split; [reflexivity|]. split; [apply FriendRequestList_isProcessing_iff|].
      intros Hbusy. unfold FriendRequestList.press. simpl. rewrite Hbusy.
      split; reflexivity.
    + intros d' Hd' Hnodup. rewrite Hd in Hd'. injection Hd' as <-.
      unfold FriendRequestList.count. apply FriendRequestList_busy_rows. exact Hnodup.
Qed.

(** X12.  A press on an enabled row button issues exactly one [mutate]
    for that request ([accept: true] from the accept button, [accept:
    false] from the reject button) and makes that row the busy one: on the
    next render its two buttons are disabled and every row of another
    request is enabled, also a row whose own mutation is still in flight. *)
Theorem FriendRequestList_press_moves_the_mark
    (st : FriendRequestList.Panel.t)
    (request other : FriendRequestList.FriendRequest.t) (accept : bool)
    (Henabled : FriendRequestList.isProcessing st
                  (FriendRequestList.FriendRequest.id request) = false)
    (Hother : FriendRequestList.FriendRequest.id other
              <> FriendRequestList.FriendRequest.id request) :
  let row := FriendRequestList.renderRow st request in
  let st' :=
    FriendRequestList.press
      (if accept then FriendRequestList.Row.accept row
       else FriendRequestList.Row.reject row) st in
  FriendRequestList.Panel.effects st'
  = FriendRequestList.Panel.effects st
    ++ [FriendRequestList.Mutate (FriendRequestList.FriendRequest.id request) accept]
  /\ FriendRequestList.busy (FriendRequestList.renderRow st' request) = true
  /\ FriendRequestList.Button.disabled
       (FriendRequestList.Row.reject (FriendRequestList.renderRow st' request)) = true
  /\ FriendRequestList.busy (FriendRequestList.renderRow st' other) = false
  /\ FriendRequestList.Button.disabled
       (FriendRequestList.Row.reject (FriendRequestList.renderRow st' other)) = false.
Proof.
  cbv zeta. unfold FriendRequestList.press, FriendRequestList.busy.
  assert (Hneq : Z.eqb (FriendRequestList.FriendRequest.id request)
                       (FriendRequestList.FriendRequest.id other) = false).
  { apply Z.eqb_neq. intros H. apply Hother. symmetry. exact H. }
  destruct accept; simpl; rewrite Henabled; simpl;
    unfold FriendRequestList.isProcessing; simpl;
    rewrite Z.eqb_refl, Hneq; repeat split.
Qed.

Lemma FriendRequestList_count_app {A} (p : A -> bool) (l l' : list A) :
  FriendRequestList.count p (l ++ l')
  = (FriendRequestList.count p l + FriendRequestList.count p l')%nat.
Proof.
  unfold FriendRequestList.count. rewrite filter_app, length_app. reflexivity.
Qed.

(** What one event adds to the effects. *)
Lemma FriendRequestList_handle_effects
    (st : FriendRequestList.Panel.t) (ev : FriendRequestList.Event) :
  exists added,
    FriendRequestList.Panel.effects (FriendRequestList.handle st ev)
    = FriendRequestList.Panel.effects st ++ added
    /\ FriendRequestList.count FriendRequestList.isPropCall added = 0%nat
    /\ FriendRequestList.count FriendRequestList.isRefetch added
       = ((if FriendRequestList.isSuccess ev then 1 else 0)
          + (if FriendRequestList.isReload ev then 1 else 0))%nat
    /\ FriendRequestList.count FriendRequestList.isToast added
       = ((if FriendRequestList.isSuccess ev then 1 else 0)
          + (if FriendRequestList.isFailure ev then 1 else 0))%nat.
Proof.
  destruct ev as [b|requestId accept|message]; simpl.
  - unfold FriendRequestList.press, FriendRequestList.isReload.
    destruct (FriendRequestList.Button.disabled b); simpl.
    + exists []. rewrite app_nil_r. repeat split.
    + destruct (FriendRequestList.Button.onClick b); simpl;
        eexists; (split; [reflexivity|]); repeat split.
  - eexists. split; [reflexivity|]. repeat split.
  - eexists. split; [reflexivity|]. repeat split.
Qed.

(** X13.  The panel never calls its [onAccept] and [onReject] props:
    whatever buttons are pressed and however the mutations end, the effects
    of a session contain no call of either. *)
Theorem FriendRequestList_never_calls_onAccept_onReject
    (evs : list FriendRequestList.Event) (st : FriendRequestList.Panel.t) :
  FriendRequestList.count FriendRequestList.isPropCall
    (FriendRequestList.Panel.effects (FriendRequestList.session evs st))
  = FriendRequestList.count FriendRequestList.isPropCall
      (FriendRequestList.Panel.effects st).
Proof.
  revert st. induction evs as [|ev evs IH]; intros st; [reflexivity|].
  unfold FriendRequestList.session in *. simpl. rewrite IH.
  destruct (FriendRequestList_handle_effects st ev) as (added & -> & Hnone & _).
  rewrite FriendRequestList_count_app, Hnone. lia.
Qed.

(** X14.  Over any session the list is re-fetched once for every mutation
    that succeeded and once for every press on the reload button, and never
    because a mutation failed; and one toast is shown for every mutation
    that ended, succeeded or failed. *)
Theorem FriendRequestList_refetches_and_toasts
    (evs : list FriendRequestList.Event) (st : FriendRequestList.Panel.t) :
  FriendRequestList.count FriendRequestList.isRefetch
    (FriendRequestList.Panel.effects (FriendRequestList.session evs st))
  = (FriendRequestList.count FriendRequestList.isRefetch
       (FriendRequestList.Panel.effects st)
     + FriendRequestList.count FriendRequestList.isSuccess evs
     + FriendRequestList.count FriendRequestList.isReload evs)%nat
  /\ FriendRequestList.count FriendRequestList.isToast
       (FriendRequestList.Panel.effects (FriendRequestList.session evs st))
     = (FriendRequestList.count FriendRequestList.isToast
          (FriendRequestList.Panel.effects st)
        + FriendRequestList.count FriendRequestList.isSuccess evs
        + FriendRequestList.count FriendRequestList.isFailure evs)%nat.
Proof.
  revert st. induction evs as [|ev evs IH]; intros st.
  - unfold FriendRequestList.count. simpl. split; lia.
  - unfold FriendRequestList.session in *. simpl.
    destruct (IH (FriendRequestList.handle st ev)) as [Hre Hto].
    rewrite Hre, Hto.
    destruct (FriendRequestList_handle_effects st ev) as (added & -> & _ & Hr & Ht).
    rewrite !FriendRequestList_count_app, Hr, Ht.
    unfold FriendRequestList.count. simpl.
    destruct (FriendRequestList.isSuccess ev), (FriendRequestList.isReload ev),
             (FriendRequestList.isFailure ev); simpl; split; lia.
Qed.

(** X15.  The end of any mutation clears the mark, whichever request it
    was for; so a request can be submitted twice while its first mutation
    is still in flight.  With two requests of different ids: accept the
    first, accept the second, let the first succeed, and the second row is
    enabled again; pressing it issues a second [mutate] for the second
    request. *)
Theorem FriendRequestList_double_submission
    (first second : FriendRequestList.FriendRequest.t) (st : FriendRequestList.Panel.t)
    (Hdistinct : FriendRequestList.FriendRequest.id first
                 <> FriendRequestList.FriendRequest.id second)
    (Hidle : FriendRequestList.Panel.processingId st = None) :
  let a := FriendRequestList.FriendRequest.id first in
  let b := FriendRequestList.FriendRequest.id second in
  let st1 :=
    FriendRequestList.press
      (FriendRequestList.Row.accept (FriendRequestList.renderRow st first)) st in
  let st2 :=
    FriendRequestList.press
      (FriendRequestList.Row.accept (FriendRequestList.renderRow st1 second)) st1 in
  let st3 := FriendRequestList.onSuccess a true st2 in
  let st4 :=
    FriendRequestList.press
      (FriendRequestList.Row.accept (FriendRequestList.renderRow st3 second)) st3 in
  FriendRequestList.busy (FriendRequestList.renderRow st2 second) = true
  /\ FriendRequestList.busy (FriendRequestList.renderRow st3 second) = false
  /\ FriendRequestList.Panel.effects st4
     = FriendRequestList.Panel.effects st
       ++ [FriendRequestList.Mutate a true;
           FriendRequestList.Mutate b true;
           FriendRequestList.Toast "好友申请已通过" None FriendRequestList.default;
           FriendRequestList.Refetch;
           FriendRequestList.Mutate b true].
Proof.
  cbv zeta.
  assert (Hneq : Z.eqb (FriendRequestList.FriendRequest.id first)
                       (FriendRequestList.FriendRequest.id second) = false).
  { apply Z.eqb_neq. exact Hdistinct. }
  destruct st as [mark effects]. simpl in Hidle. subst mark.
  cbv [FriendRequestList.press FriendRequestList.busy FriendRequestList.onSuccess
       FriendRequestList.isProcessing FriendRequestList.handleAccept
       FriendRequestList.setProcessingId FriendRequestList.emit
       FriendRequestList.run FriendRequestList.renderRow
       FriendRequestList.Row.accept FriendRequestList.Button.disabled
       FriendRequestList.Button.onClick FriendRequestList.Panel.processingId
       FriendRequestList.Panel.effects].
  rewrite Hneq. cbv iota. rewrite Z.eqb_refl.
  split; [reflexivity|]. split; [reflexivity|].
  rewrite <- !app_assoc. reflexivity.
Qed.

(** ** Orders and product types *)

(** X16.  An order is reachable only under the product type it was
    created with (['vip'] and ['svip'] counting as one).  After any
    [initializePayment], the tables of the other product types are what
    they were, so [getOrderStatus] under another product type answers as
    before; and [completePayment] for the new order number under another
    product type whose table has no such number makes no crediting call
    and, with a verified payment, throws [NOT_FOUND]. *)
Theorem order_bound_to_its_product_type
    (env env' : Collaborators) (input : InitializeInput.t) (w : World)
    (p : ProductType.t) (paypalOrderId : string) (expectedAmount : number)
    (Hother : same_table p (InitializeInput.productType input) = false) :
  let w1 := snd (initializePayment env input w) in
  let request :=
    {| CompleteInput.orderNo := generateOrderNo env;
       CompleteInput.paypalOrderId := paypalOrderId;
       CompleteInput.productType := p;
       CompleteInput.expectedAmount := expectedAmount |} in
  table_of p (db w1) = table_of p (db w)
  /\ (forall orderNo,
        fst (getOrderStatus
               {| StatusInput.orderNo := orderNo; StatusInput.productType := p |} w1)
        = fst (getOrderStatus
                 {| StatusInput.orderNo := orderNo; StatusInput.productType := p |} w))
  /\ ((forall o, In o (table_of p (db w)) -> order_orderNo o <> generateOrderNo env) ->
      calls (snd (completePayment env' request w1))
      = calls w ++ [CallVerifyPayPalPayment paypalOrderId expectedAmount]
      /\ (forall vr,
            verifyPayPalPayment env' paypalOrderId expectedAmount = inr vr ->
            VerificationResult.verified vr = true ->
            fst (completePayment env' request w1)
            = Throw (TRPCError NOT_FOUND "订单不存在"))).
Proof.
  cbv zeta.
  assert (Htable : table_of p (db (snd (initializePayment env input w)))
                   = table_of p (db w)).
  { destruct (resolved_user env (db w)) as [user|] eqn:Huser.
    2:{ rewrite (initializePayment_unresolved env input w Huser). reflexivity. }
    destruct (insertRejected env) as [e|] eqn:Hrej.
    { rewrite (initializePayment_rejected env input w user e Huser Hrej). reflexivity. }
    destruct (initializePayment_accepted env input w user Huser Hrej)
      as (d' & created & -> & _ & Hothers & _).
    simpl. apply Hothers. exact Hother. }
  assert (Hcalls : calls (snd (initializePayment env input w)) = calls w).
  { destruct (resolved_user env (db w)) as [user|] eqn:Huser.
    2:{ rewrite (initializePayment_unresolved env input w Huser). reflexivity. }
    destruct (insertRejected env) as [e|] eqn:Hrej.
    { rewrite (initializePayment_rejected env input w user e Huser Hrej). reflexivity. }
    destruct (initializePayment_accepted env input w user Huser Hrej)
      as (d' & created & -> & _). reflexivity. }
  split; [exact Htable|]. split.
  - intros orderNo. rewrite !getOrderStatus_eq. simpl.
    unfold stored_order. rewrite Htable. reflexivity.
  - intros Hfresh.
    assert (Hnone : stored_order p (generateOrderNo env)
                      (db (snd (initializePayment env input w))) = None).
    { apply stored_order_none_iff. rewrite Htable. exact Hfresh. }
    rewrite completePayment_eq. cbv zeta. simpl. rewrite Hnone.
    unfold verify_call. simpl.
    destruct (verifyPayPalPayment env' paypalOrderId expectedAmount) as [e|vr].
    + simpl. rewrite Hcalls. split; [reflexivity | intros vr H; discriminate H].
    + destruct (VerificationResult.verified vr) eqn:Hok; simpl; rewrite Hcalls.
      * split; [reflexivity | intros vr' _ _; reflexivity].
      * split; [reflexivity|]. intros vr' H Hok'. injection H as <-. congruence.
Qed.

(** ** What a screen lets the user submit *)

(** X17.  A press on any button of a rendered screen submits a decision
    only for a request that screen displays: every [mutate] it issues
    carries the id of one of the requests in the query's [data].  The
    loading and error screens have no accept or reject button, so nothing
    can be submitted from them, even when earlier [data] is still held. *)
Theorem FriendRequestList_submits_displayed_requests_only
    (query : FriendRequestList.Query.t) (mutationIsLoading : bool)
    (st : FriendRequestList.Panel.t) (b : FriendRequestList.Button.t)
    (Hbutton : In b (FriendRequestList.buttons
                       (FriendRequestList.render query mutationIsLoading st))) :
  exists added,
    FriendRequestList.Panel.effects (FriendRequestList.press b st)
    = FriendRequestList.Panel.effects st ++ added
    /\ (forall requestId accept,
          In (FriendRequestList.Mutate requestId accept) added ->
          FriendRequestList.Query.isLoading query = false
          /\ FriendRequestList.Query.error query = None
          /\ exists d request,
               FriendRequestList.Query.data query = Some d
               /\ In request (FriendRequestList.Data.requests d)
               /\ FriendRequestList.FriendRequest.id request = requestId).
Proof.
  unfold FriendRequestList.render in Hbutton.
  destruct (FriendRequestList.Query.isLoading query) eqn:Hloading; [destruct Hbutton|].
  destruct (FriendRequestList.Query.error query) as [e|] eqn:Herror.
  { destruct Hbutton as [<-|[]]. eexists. split; [reflexivity|].
    intros requestId accept [H|[]]. discriminate H. }
  simpl in Hbutton. destruct Hbutton as [<-|Hrow].
  { unfold FriendRequestList.press. simpl. destruct mutationIsLoading.
    - exists []. rewrite app_nil_r. split; [reflexivity | intros ? ? []].
    - eexists. split; [reflexivity|]. intros requestId accept [H|[]]. discriminate H. }
  destruct (FriendRequestList.Query.data query) as [d|] eqn:Hdata; [|destruct Hrow].
  destruct (Nat.eqb _ 0); [destruct Hrow|].
  apply in_flat_map in Hrow. destruct Hrow as (row & Hrows & Hb).
  apply in_map_iff in Hrows. destruct Hrows as (request & <- & Hrequest).
  unfold FriendRequestList.press.
  destruct Hb as [<-|[<-|[]]]; simpl;
    (destruct (FriendRequestList.isProcessing st _);
     [ exists []; rewrite app_nil_r; split; [reflexivity | intros ? ? []]
     | eexists; split; [reflexivity|];
       intros requestId accept [H|[]]; injection H as <- _;
       split; [reflexivity|]; split; [reflexivity|];
       exists d, request; repeat split; assumption ]).
Qed.

(** ** Concrete runs of the further properties *)

(** X1 at the clock and draw of the stubs. *)
Lemma generateOrderNo_clock_then_three_digits_witness :
  0 <= Math_random_times_1000_floor paying_env < 1000
  /\ generateOrderNo paying_env = "1700000000000042"
  /\ String.length (generateOrderNo paying_env) = 16%nat.
Proof.
  assert (Hdraw : 0 <= Math_random_times_1000_floor paying_env < 1000).
  { simpl. lia. }
  split; [exact Hdraw|].
  destruct (generateOrderNo_clock_then_three_digits paying_env Hdraw) as [H1 H2].
  split; [rewrite H1; reflexivity | rewrite H2; reflexivity].
Defined.

(** X2 at two environments that read the same clock and draw the same
    number. *)
Lemma generateOrderNo_injective_witness :
  0 <= Math_random_times_1000_floor paying_env < 1000
  /\ 0 <= Math_random_times_1000_floor rejecting_env < 1000
  /\ generateOrderNo paying_env = generateOrderNo rejecting_env
  /\ Date_now paying_env = Date_now rejecting_env
  /\ Math_random_times_1000_floor paying_env
     = Math_random_times_1000_floor rejecting_env.
Proof.
  assert (H1 : 0 <= Math_random_times_1000_floor paying_env < 1000).
  { simpl. lia. }
  assert (H2 : 0 <= Math_random_times_1000_floor rejecting_env < 1000).
  { simpl. lia. }
  split; [exact H1|]. split; [exact H2|]. split; [reflexivity|].
  exact (generateOrderNo_injective paying_env rejecting_env H1 H2 eq_refl).
Defined.

(** X4 at the gold-coin request with and without fields of other product
    types. *)
Lemma initializePayment_reads_own_details_witness :
  same_order_request goldCoin_500 goldCoin_500_with_extras
  /\ initializePayment paying_env goldCoin_500 shop
     = initializePayment paying_env goldCoin_500_with_extras shop.
Proof.
  assert (Hsame : same_order_request goldCoin_500 goldCoin_500_with_extras).
  { repeat split. }
  split; [exact Hsame|].
  exact (initializePayment_reads_own_details paying_env goldCoin_500
           goldCoin_500_with_extras shop Hsame).
Defined.

(** X5 where the new order takes the number of the settled one. *)
Lemma initializePayment_preserves_existing_orders_witness :
  stored_order (StatusInput.productType status_request)
    (StatusInput.orderNo status_request) (db settled_shop)
  = Some (OrderGoldCoin settled_order)
  /\ stored_order ProductType.goldCoin "1700000000000042"
       (db (snd (initializePayment paying_env goldCoin_500 settled_shop)))
     = Some (OrderGoldCoin settled_order)
  /\ fst (getOrderStatus status_request
            (snd (initializePayment paying_env goldCoin_500 settled_shop)))
     = fst (getOrderStatus status_request settled_shop).
Proof.
  split; [reflexivity|].
  exact (initializePayment_preserves_existing_orders paying_env goldCoin_500
           settled_shop status_request (OrderGoldCoin settled_order) eq_refl).
Defined.

(** X6 for a VIP request that names neither level nor months, completed
    by another principal: the crediting call carries neither. *)
Lemma order_lifecycle_credits_requested_payload_witness :
  resolved_user paying_env (db shop) = Some alice
  /\ insertRejected paying_env = None
  /\ (forall o, In o (table_of (InitializeInput.productType vip_without_details)
                        (db shop)) ->
                order_orderNo o <> generateOrderNo paying_env)
  /\ verifyPayPalPayment stranger_env "5O190127TN364715T" (decimal_literal 1999 2)
     = inr verified_9_99
  /\ VerificationResult.verified verified_9_99 = true
  /\ calls (snd (completePayment stranger_env
                   (completion_of paying_env vip_without_details
                      "5O190127TN364715T" (decimal_literal 1999 2))
                   (snd (initializePayment paying_env vip_without_details shop))))
     = [CallVerifyPayPalPayment "5O190127TN364715T" (decimal_literal 1999 2);
        CallRechargeVip
          {| RechargeVip.orderNo := "1700000000000042";
             RechargeVip.vipLevel := None;
             RechargeVip.month := None;
             RechargeVip.amount := Some (decimal_literal 999 2);
             RechargeVip.paypalOrderId := "5O190127TN364715T" |}].
Proof.
  assert (Hfresh : forall o,
             In o (table_of (InitializeInput.productType vip_without_details)
                     (db shop)) ->
             order_orderNo o <> generateOrderNo paying_env).
  { simpl. intros o []. }
  split; [reflexivity|]. split; [reflexivity|]. split; [exact Hfresh|].
  split; [reflexivity|]. split; [reflexivity|].
  exact (order_lifecycle_credits_requested_payload paying_env stranger_env
           vip_without_details shop alice "5O190127TN364715T"
           (decimal_literal 1999 2) verified_9_99
           eq_refl eq_refl Hfresh eq_refl eq_refl).
Defined.


(** X8 with a crediting stub that settles the order: the retry is
    refused. *)
Lemma completePayment_retry_refused_after_settlement_witness :
  (exists order,
     stored_order (CompleteInput.productType pay_request)
       (CompleteInput.orderNo pay_request)
       (db (snd (completePayment settling_env pay_request pending_shop))) = Some order
     /\ order_status order = 1)
  /\ fst (completePayment settling_env pay_request
            (snd (completePayment settling_env pay_request pending_shop)))
     = Throw (TRPCError BAD_REQUEST "订单状态异常")
  /\ calls (snd (completePayment settling_env pay_request
                   (snd (completePayment settling_env pay_request pending_shop))))
     = [CallVerifyPayPalPayment "5O190127TN364715T" (decimal_literal 10 0);
        CallRechargeGoldCoin
          {| RechargeGoldCoin.orderNo := "1700000000000042";
             RechargeGoldCoin.goldCoin := Some (decimal_literal 500 0);
             RechargeGoldCoin.amount := Some (decimal_literal 999 2);
             RechargeGoldCoin.paypalOrderId := "5O190127TN364715T" |};
        CallVerifyPayPalPayment "5O190127TN364715T" (decimal_literal 10 0)].
Proof.
  assert (Hsettled : order_status
                       (OrderGoldCoin
                          {| RecordGoldCoin.orderNo := "1700000000000042";
                             RecordGoldCoin.buyUserId := 7;
                             RecordGoldCoin.buyNickname := Some "alice";
                             RecordGoldCoin.recipientUserId := 7;
                             RecordGoldCoin.amount := "9.99";
                             RecordGoldCoin.goldCoin := Some (decimal_literal 500 0);
                             RecordGoldCoin.payType := 3;
                             RecordGoldCoin.status := 1;
                             RecordGoldCoin.payTime := None |}) <> 0).
  { simpl. lia. }
  split; [eexists; split; reflexivity|].
  destruct (completePayment_retry_refused_after_settlement settling_env pay_request
              pending_shop verified_9_99
              (OrderGoldCoin
                 {| RecordGoldCoin.orderNo := "1700000000000042";
                    RecordGoldCoin.buyUserId := 7;
                    RecordGoldCoin.buyNickname := Some "alice";
                    RecordGoldCoin.recipientUserId := 7;
                    RecordGoldCoin.amount := "9.99";
                    RecordGoldCoin.goldCoin := Some (decimal_literal 500 0);
                    RecordGoldCoin.payType := 3;
                    RecordGoldCoin.status := 0;
                    RecordGoldCoin.payTime := None |})
              _ eq_refl eq_refl eq_refl eq_refl eq_refl Hsettled) as (H1 & H2 & _).
  split; [exact H1 | exact H2].
Defined.

(** X9 with a crediting stub that settles the order and then fails: the
    call throws, and the order is settled all the same. *)
Lemma completePayment_database_effect_witness :
  fst (completePayment half_done_env pay_request pending_shop)
  = Throw (OtherError "deadlock")
  /\ stored_order ProductType.goldCoin "1700000000000042" (db pending_shop)
     <> stored_order ProductType.goldCoin "1700000000000042"
          (db (snd (completePayment half_done_env pay_request pending_shop)))
  /\ exists order,
       stored_order ProductType.goldCoin "1700000000000042"
         (db (snd (completePayment half_done_env pay_request pending_shop)))
       = Some order
       /\ order_status order = 1.
Proof.
  destruct (completePayment_database_effect half_done_env pay_request pending_shop)
    as [[(Hdb & _) | (vr & order & _ & _ & _ & _ & Hdb & Hthrows)] _].
  - exfalso. apply (f_equal iRecordGoldCoin) in Hdb. vm_compute in Hdb.
    discriminate Hdb.
  - split; [reflexivity|]. split; [intros H; vm_compute in H; discriminate H|].
    eexists. split; reflexivity.
Defined.

(** X10 with a verifier that refuses with an empty error text. *)
Lemma completePayment_failure_message_witness :
  verifyPayPalPayment refusing_blank_env (CompleteInput.paypalOrderId pay_request)
    (CompleteInput.expectedAmount pay_request)
  = inr {| VerificationResult.verified := false;
           VerificationResult.amount := None;
           VerificationResult.error := Some EmptyString |}
  /\ fst (completePayment refusing_blank_env pay_request pending_shop)
     = Throw (TRPCError PAYMENT_FAILED "Payment verification failed").
Proof.
  split; [reflexivity|].
  destruct (completePayment_failure_message refusing_blank_env pay_request pending_shop
              _ eq_refl eq_refl) as (message & Hthrown & _ & _ & Hdefault).
  rewrite Hthrown, (Hdefault (or_intror eq_refl)). reflexivity.
Defined.

(** X16 for Alice's gold-coin order asked for as a translation order. *)
Lemma order_bound_to_its_product_type_witness :
  same_table ProductType.translate (InitializeInput.productType goldCoin_500) = false
  /\ fst (getOrderStatus
            {| StatusInput.orderNo := "1700000000000042";
               StatusInput.productType := ProductType.translate |} pending_shop)
     = Throw (TRPCError NOT_FOUND "订单不存在")
  /\ fst (completePayment paying_env
            {| CompleteInput.orderNo := generateOrderNo paying_env;
               CompleteInput.paypalOrderId := "5O190127TN364715T";
               CompleteInput.productType := ProductType.translate;
               CompleteInput.expectedAmount := decimal_literal 10 0 |} pending_shop)
     = Throw (TRPCError NOT_FOUND "订单不存在").
Proof.
  split; [reflexivity|].
  destruct (order_bound_to_its_product_type paying_env paying_env goldCoin_500 shop
              ProductType.translate "5O190127TN364715T" (decimal_literal 10 0) eq_refl)
    as (_ & Hstatus & Hcomplete).
  split.
  - unfold pending_shop. rewrite (Hstatus "1700000000000042"). reflexivity.
  - assert (Hfresh : forall o, In o (table_of ProductType.translate (db shop)) ->
                               order_orderNo o <> generateOrderNo paying_env).
    { simpl. intros o []. }
    exact (proj2 (Hcomplete Hfresh) verified_9_99 eq_refl eq_refl).
Defined.

(** X12 while another request is in flight: Bob's request 11 is marked,
    Carol's request 12 is accepted, and Bob's row is enabled again. *)
Lemma FriendRequestList_press_moves_the_mark_witness :
  FriendRequestList.busy
    (FriendRequestList.renderRow (FriendRequestList.processing 11)
       (FriendRequestList.request_of 11 "bob")) = true
  /\ FriendRequestList.isProcessing (FriendRequestList.processing 11)
       (FriendRequestList.FriendRequest.id (FriendRequestList.request_of 12 "carol"))
     = false
  /\ FriendRequestList.Panel.effects
       (FriendRequestList.press
          (FriendRequestList.Row.accept
             (FriendRequestList.renderRow (FriendRequestList.processing 11)
                (FriendRequestList.request_of 12 "carol")))
          (FriendRequestList.processing 11))
     = [FriendRequestList.Mutate 11 true; FriendRequestList.Mutate 12 true]
  /\ FriendRequestList.busy
       (FriendRequestList.renderRow
          (FriendRequestList.press
             (FriendRequestList.Row.accept
                (FriendRequestList.renderRow (FriendRequestList.processing 11)
                   (FriendRequestList.request_of 12 "carol")))
             (FriendRequestList.processing 11))
          (FriendRequestList.request_of 11 "bob")) = false.
Proof.
  assert (Hother : FriendRequestList.FriendRequest.id
                     (FriendRequestList.request_of 11 "bob")
                   <> FriendRequestList.FriendRequest.id
                        (FriendRequestList.request_of 12 "carol")).
  { simpl. lia. }
  split; [reflexivity|]. split; [reflexivity|].
  destruct (FriendRequestList_press_moves_the_mark (FriendRequestList.processing 11)
              (FriendRequestList.request_of 12 "carol")
              (FriendRequestList.request_of 11 "bob") true eq_refl Hother)
    as (H1 & _ & _ & H4 & _).
  split; [exact H1 | exact H4].
Defined.

(** X15 for Bob's and Carol's requests on a fresh panel: three [mutate]
    calls, two of them for Carol's request, after one success. *)
Lemma FriendRequestList_double_submission_witness :
  FriendRequestList.FriendRequest.id (FriendRequestList.request_of 11 "bob")
  <> FriendRequestList.FriendRequest.id (FriendRequestList.request_of 12 "carol")
  /\ FriendRequestList.Panel.processingId FriendRequestList.initial = None
  /\ let bob := FriendRequestList.request_of 11 "bob" in
     let carol := FriendRequestList.request_of 12 "carol" in
     let st1 :=
       FriendRequestList.press
         (FriendRequestList.Row.accept
            (FriendRequestList.renderRow FriendRequestList.initial bob))
         FriendRequestList.initial in
     let st2 :=
       FriendRequestList.press
         (FriendRequestList.Row.accept (FriendRequestList.renderRow st1 carol)) st1 in
     let st3 := FriendRequestList.onSuccess 11 true st2 in
     let st4 :=
       FriendRequestList.press
         (FriendRequestList.Row.accept (FriendRequestList.renderRow st3 carol)) st3 in
     FriendRequestList.Panel.effects st4
     = [FriendRequestList.Mutate 11 true;
        FriendRequestList.Mutate 12 true;
        FriendRequestList.Toast "好友申请已通过" None FriendRequestList.default;
        FriendRequestList.Refetch;
        FriendRequestList.Mutate 12 true].
Proof.
  assert (Hdistinct : FriendRequestList.FriendRequest.id
                        (FriendRequestList.request_of 11 "bob")
                      <> FriendRequestList.FriendRequest.id
                           (FriendRequestList.request_of 12 "carol")).
  { simpl. lia. }
  split; [exact Hdistinct|]. split; [reflexivity|].
  exact (proj2 (proj2 (FriendRequestList_double_submission
                         (FriendRequestList.request_of 11 "bob")
                         (FriendRequestList.request_of 12 "carol")
                         FriendRequestList.initial Hdistinct eq_refl))).
Defined.

(** X17 on the list screen with Bob's and Carol's requests: the decision
    that Carol's reject button submits is for a request on display. *)
Lemma FriendRequestList_submits_displayed_requests_only_witness :
  In (FriendRequestList.Row.reject
        (FriendRequestList.renderRow FriendRequestList.initial
           (FriendRequestList.request_of 12 "carol")))
     (FriendRequestList.buttons
        (FriendRequestList.render
           (FriendRequestList.loaded FriendRequestList.two_requests) false
           FriendRequestList.initial))
  /\ FriendRequestList.Panel.effects
       (FriendRequestList.press
          (FriendRequestList.Row.reject
             (FriendRequestList.renderRow FriendRequestList.initial
                (FriendRequestList.request_of 12 "carol")))
          FriendRequestList.initial)
     = [FriendRequestList.Mutate 12 false]
  /\ exists request,
       In request (FriendRequestList.Data.requests FriendRequestList.two_requests)
       /\ FriendRequestList.FriendRequest.id request = 12.
Proof.
  assert (Hbutton :
            In (FriendRequestList.Row.reject
                  (FriendRequestList.renderRow FriendRequestList.initial
                     (FriendRequestList.request_of 12 "carol")))
               (FriendRequestList.buttons
                  (FriendRequestList.render
                     (FriendRequestList.loaded FriendRequestList.two_requests) false
                     FriendRequestList.initial))).
  { simpl. right. right. right. left. reflexivity. }
  split; [exact Hbutton|]. split; [reflexivity|].
  destruct (FriendRequestList_submits_displayed_requests_only
              (FriendRequestList.loaded FriendRequestList.two_requests) false
              FriendRequestList.initial _ Hbutton) as (added & Heffects & Hdisplayed).
  simpl in Heffects. subst added.
  destruct (Hdisplayed 12 false (or_introl eq_refl))
    as (_ & _ & d & request & Hdata & Hin & Hid).
  simpl in Hdata. injection Hdata as <-.
  exists request. split; [exact Hin | exact Hid].
Defined.
